(* ===================================================================== *)
(* twitch-dc: the request core of twitchdc/api.py (class HelixAPI)        *)
(*                                                                       *)
(* A shallow embedding of the token refresh, the single request with its *)
(* 401/429 handling, the cursor pagination and the parameter checks of   *)
(* the public query methods, followed by the properties of that code.    *)
(*                                                                       *)
(* The client is a record of its attributes; the code runs in a state    *)
(* and exception monad over the client and the world around it: the      *)
(* answers of the transport, the trace of requests, sleeps and callback  *)
(* calls, the clock, and the dicts that are passed by reference.  Calls  *)
(* of the logger and the print of the loop are left out.                 *)
(* ===================================================================== *)

From stdpp Require Import base strings gmap list.
From Stdlib Require Import ZArith QArith Ascii Lia.

Local Open Scope string_scope.
Local Open Scope list_scope.
Local Open Scope Z_scope.
Local Set Warnings "-register-all".

(* --------------------------------------------------------------------- *)
(* 1. Python values, exceptions                                           *)
(* --------------------------------------------------------------------- *)

(** The Python objects the code handles: decoded JSON bodies, query
    parameter values, method arguments.  A dict is the list of its items in
    insertion order (keys pairwise distinct in a well-formed dict); JSON
    numbers are integers (no code path computes with a body's number). *)
Inductive pyval : Type :=
| PyNone
| PyBool (b : bool)
| PyInt (n : Z)
| PyStr (s : string)
| PyList (xs : list pyval)
| PyDict (items : list (string * pyval)).

(** The exceptions that can travel through the modelled code.  [Exception]
    is the builtin class the source raises directly; its argument is the
    message, empty for a bare [raise Exception]. *)
Inductive exn : Type :=
| Exception (msg : string)
| ValueError (msg : string)
| TypeError (msg : string)
| KeyError (key : string)
| AttributeError (msg : string)
| JSONDecodeError
| RequestException (msg : string)
| UserError (msg : string).

(** Outcome of running a piece of code: a value, a raised exception, or
    [Diverge] when the fuel of a recursion or of the while loop ran out
    (the Python code would still be running). *)
Inductive result (A : Type) : Type :=
| Ok (a : A)
| Err (e : exn)
| Diverge.
Arguments Ok {A} a.
Arguments Err {A} e.
Arguments Diverge {A}.

Definition is_none (v : pyval) : bool :=
  match v with PyNone => true | _ => false end.

Definition isinstance_list (v : pyval) : bool :=
  match v with PyList _ => true | _ => false end.

(** [v == n] for an int literal [n]: only an int (or a bool, which is an
    int in Python) can be equal to it; a str or None never is. *)
Definition py_eq_int (v : pyval) (n : Z) : bool :=
  match v with
  | PyInt m => m =? n
  | PyBool b => (if b then 1 else 0) =? n
  | _ => false
  end.

Fixpoint assoc_get {V : Type} (k : string) (items : list (string * V)) : option V :=
  match items with
  | [] => None
  | (k', v) :: rest => if String.eqb k k' then Some v else assoc_get k rest
  end.

(** [v[key]] for a string key. *)
Definition py_getitem (v : pyval) (key : string) : result pyval :=
  match v with
  | PyDict items =>
      match assoc_get key items with
      | Some x => Ok x
      | None => Err (KeyError key)
      end
  | PyList _ => Err (TypeError "list indices must be integers or slices, not str")
  | PyStr _ => Err (TypeError "string indices must be integers")
  | _ => Err (TypeError "object is not subscriptable")
  end.

Fixpoint chars (s : string) : list pyval :=
  match s with
  | EmptyString => []
  | String c rest => PyStr (String c EmptyString) :: chars rest
  end.

(** The elements [list.extend(v)] appends: those of a list, the characters
    of a str, the keys of a dict. *)
Definition py_iter (v : pyval) : result (list pyval) :=
  match v with
  | PyList xs => Ok xs
  | PyStr s => Ok (chars s)
  | PyDict items => Ok (map (fun kv => PyStr (fst kv)) items)
  | _ => Err (TypeError "object is not iterable")
  end.

(** [len(v)]. *)
Definition py_len (v : pyval) : result Z :=
  match v with
  | PyList xs => Ok (Z.of_nat (length xs))
  | PyStr s => Ok (Z.of_nat (String.length s))
  | PyDict items => Ok (Z.of_nat (length items))
  | _ => Err (TypeError "object has no len()")
  end.

(** Decimal digits of a string, most significant first. *)
Fixpoint digits (s : string) (acc : Z) : option Z :=
  match s with
  | EmptyString => Some acc
  | String c rest =>
      let n := Z.of_nat (Ascii.nat_of_ascii c) in
      if (48 <=? n) && (n <=? 57) then digits rest (10 * acc + (n - 48)) else None
  end.

(** [int(s)] on a str: an optional sign and a non-empty run of decimal
    digits.  (Python also accepts surrounding blanks and underscores between
    digits; such strings count as malformed here.) *)
Definition int_of_str (s : string) : option Z :=
  match s with
  | EmptyString => None
  | String "-"%char (String c r) => Z.opp <$> digits (String c r) 0
  | String "+"%char (String c r) => digits (String c r) 0
  | _ => digits s 0
  end.

(** [int(v)]. *)
Definition py_int (v : pyval) : result Z :=
  match v with
  | PyInt n => Ok n
  | PyBool b => Ok (if b then 1 else 0)
  | PyStr s =>
      match int_of_str s with
      | Some n => Ok n
      | None => Err (ValueError "invalid literal for int() with base 10")
      end
  | _ => Err (TypeError "int() argument must be a string, a bytes-like object or a real number")
  end.

(* --------------------------------------------------------------------- *)
(* 2. The transport, the clock and the store of dicts                     *)
(* --------------------------------------------------------------------- *)

(** What the code reads of a [requests.Response]: the status, the reason,
    the headers and the body ([None] when the body is not JSON). *)
Record Response : Type := mkResponse {
  status_code : Z;
  reason : string;
  resp_headers : list (string * string);
  body : option pyval
}.

(** A call of the session either returns a response or raises (connection
    failure, timeout, retries exhausted). *)
Inductive outcome : Type :=
| Responds (r : Response)
| Fails (e : exn).

Definition lower_ascii (c : Ascii.ascii) : Ascii.ascii :=
  let n := Ascii.nat_of_ascii c in
  if (Nat.leb 65 n && Nat.leb n 90)%bool then Ascii.ascii_of_nat (n + 32) else c.

Fixpoint lower (s : string) : string :=
  match s with
  | EmptyString => EmptyString
  | String c rest => String (lower_ascii c) (lower rest)
  end.

(** [response.headers.get(name)]: header names compare without case; an
    absent header gives None. *)
Fixpoint headers_get (hs : list (string * string)) (name : string) : pyval :=
  match hs with
  | [] => PyNone
  | (k, v) :: rest =>
      if String.eqb (lower k) (lower name) then PyStr v else headers_get rest name
  end.

(** A value of the client's header dict: a plain string, or the f-string
    [f"Bearer {token}"] kept unformatted. *)
Inductive header_val : Type :=
| HStr (s : string)
| HBearer (token : pyval).

Definition loc := nat.

(** What the outside world sees of a run, in order. *)
Inductive event : Type :=
| EvGet (url : string) (params : gmap string pyval)
        (hdrs : gmap string header_val) (out : outcome)
| EvPost (url : string) (data : gmap string pyval) (timeout : Z) (out : outcome)
| EvSleep (secs : Q)
| EvCallback (token : pyval).

(** The world around the client: the outcomes the session will produce for
    the coming calls (a server that has gone away refuses the connection),
    the events so far, the wall clock in seconds, and the dict objects that
    are passed by reference. *)
Record world : Type := mkWorld {
  script : list outcome;
  trace : list event;
  clock : Q;
  heap : list (gmap string pyval)
}.

(** The retry configuration of the session ([_setup_http_client]); the
    retries themselves happen inside the transport, before an outcome. *)
Record Session : Type := mkSession {
  retry_total : Z;
  status_forcelist : list Z;
  method_whitelist : list string;
  backoff_factor : Z
}.

(* --------------------------------------------------------------------- *)
(* 3. The client object                                                   *)
(* --------------------------------------------------------------------- *)

(** The attributes of a [HelixAPI] instance.  An attribute that
    [__init__] has not assigned yet is [None] at the option level.  The two
    rate-limit attributes start from the class-level values.
    [_refresh_access_token_attr] is the instance attribute of that name,
    which, once assigned, hides the method of the class. *)
Record HelixAPI : Type := mkHelixAPI {
  client_id : string;
  client_secret : string;
  access_token_refresh_callback : option (pyval -> option exn);
  _access_token_refreshed : bool;
  access_token : option pyval;
  headers : option (gmap string header_val);
  http : option Session;
  _ratelimit_reset_timestamp : pyval;
  _ratelimit_remaining : pyval;
  _refresh_access_token_attr : option pyval
}.

Definition BASE_URL : string := "https://api.twitch.tv/helix/".
Definition TOKEN_URL : string := "https://id.twitch.tv/oauth2/token".

Definition state : Type := HelixAPI * world.

(* --------------------------------------------------------------------- *)
(* 4. State and exception monad                                           *)
(* --------------------------------------------------------------------- *)

(** A computation threads the client and the world; the state survives a
    raised exception, as the mutations of a Python object do. *)
Definition M (A : Type) : Type := state -> result A * state.

Definition ret {A} (a : A) : M A := fun st => (Ok a, st).

Definition bind {A B} (m : M A) (k : A -> M B) : M B :=
  fun st =>
    match m st with
    | (Ok a, st') => k a st'
    | (Err e, st') => (Err e, st')
    | (Diverge, st') => (Diverge, st')
    end.

Definition raise {A} (e : exn) : M A := fun st => (Err e, st).
Definition diverge {A} : M A := fun st => (Diverge, st).

Definition lift {A} (r : result A) : M A := fun st => (r, st).

(** [try: m  except: h] with a bare except clause. *)
Definition try_except {A} (m : M A) (h : M A) : M A :=
  fun st =>
    match m st with
    | (Err _, st') => h st'
    | other => other
    end.

Notation "'let*' x ':=' m 'in' k" := (bind m (fun x => k))
  (at level 10, x name, m at level 100, k at level 200).

Definition get_self : M HelixAPI := fun st => (Ok (fst st), st).
Definition get_world : M world := fun st => (Ok (snd st), st).
Definition modify_self (f : HelixAPI -> HelixAPI) : M unit :=
  fun st => (Ok tt, (f (fst st), snd st)).
Definition modify_world (f : world -> world) : M unit :=
  fun st => (Ok tt, (fst st, f (snd st))).

(* Attribute assignments on the client. *)
Definition set__access_token_refreshed (b : bool) (o : HelixAPI) : HelixAPI :=
  mkHelixAPI (client_id o) (client_secret o) (access_token_refresh_callback o)
    b (access_token o) (headers o) (http o)
    (_ratelimit_reset_timestamp o) (_ratelimit_remaining o)
    (_refresh_access_token_attr o).

Definition set_access_token (t : pyval) (o : HelixAPI) : HelixAPI :=
  mkHelixAPI (client_id o) (client_secret o) (access_token_refresh_callback o)
    (_access_token_refreshed o) (Some t) (headers o) (http o)
    (_ratelimit_reset_timestamp o) (_ratelimit_remaining o)
    (_refresh_access_token_attr o).

Definition set_headers (h : gmap string header_val) (o : HelixAPI) : HelixAPI :=
  mkHelixAPI (client_id o) (client_secret o) (access_token_refresh_callback o)
    (_access_token_refreshed o) (access_token o) (Some h) (http o)
    (_ratelimit_reset_timestamp o) (_ratelimit_remaining o)
    (_refresh_access_token_attr o).

Definition set_http (s : Session) (o : HelixAPI) : HelixAPI :=
  mkHelixAPI (client_id o) (client_secret o) (access_token_refresh_callback o)
    (_access_token_refreshed o) (access_token o) (headers o) (Some s)
    (_ratelimit_reset_timestamp o) (_ratelimit_remaining o)
    (_refresh_access_token_attr o).

Definition set__ratelimit_reset_timestamp (v : pyval) (o : HelixAPI) : HelixAPI :=
  mkHelixAPI (client_id o) (client_secret o) (access_token_refresh_callback o)
    (_access_token_refreshed o) (access_token o) (headers o) (http o)
    v (_ratelimit_remaining o) (_refresh_access_token_attr o).

Definition set__ratelimit_remaining (v : pyval) (o : HelixAPI) : HelixAPI :=
  mkHelixAPI (client_id o) (client_secret o) (access_token_refresh_callback o)
    (_access_token_refreshed o) (access_token o) (headers o) (http o)
    (_ratelimit_reset_timestamp o) v (_refresh_access_token_attr o).

Definition set__refresh_access_token (v : pyval) (o : HelixAPI) : HelixAPI :=
  mkHelixAPI (client_id o) (client_secret o) (access_token_refresh_callback o)
    (_access_token_refreshed o) (access_token o) (headers o) (http o)
    (_ratelimit_reset_timestamp o) (_ratelimit_remaining o) (Some v).

(* --------------------------------------------------------------------- *)
(* 5. Primitives: the session, the clock, dicts passed by reference       *)
(* --------------------------------------------------------------------- *)

(** The next outcome of the transport; with nothing left the connection
    fails. *)
Definition next_outcome (w : world) : outcome * list outcome :=
  match script w with
  | [] => (Fails (RequestException "ConnectionError"), [])
  | o :: rest => (o, rest)
  end.

Definition of_outcome (o : outcome) : M Response :=
  match o with
  | Responds r => ret r
  | Fails e => raise e
  end.

(** [self.http] and [self.headers]: reading an attribute that is not set
    raises AttributeError. *)
Definition attr_http : M Session :=
  let* o := get_self in
  match http o with
  | Some s => ret s
  | None => raise (AttributeError "'HelixAPI' object has no attribute 'http'")
  end.

Definition attr_headers : M (gmap string header_val) :=
  let* o := get_self in
  match headers o with
  | Some h => ret h
  | None => raise (AttributeError "'HelixAPI' object has no attribute 'headers'")
  end.

(** The dict behind a reference (an unallocated reference reads as the
    empty dict; the code only holds references it was given or made). *)
Definition deref (w : world) (l : loc) : gmap string pyval :=
  default ∅ (heap w !! l).

(** [session.get(url, params=params, headers=hdrs)]: the dict is read when
    the request is sent. *)
Definition session_get (url : string) (params : loc)
    (hdrs : gmap string header_val) : M Response :=
  let* w := get_world in
  let (o, rest) := next_outcome w in
  let* _ := modify_world (fun w =>
    mkWorld rest (trace w ++ [EvGet url (deref w params) hdrs o]) (clock w) (heap w)) in
  of_outcome o.

(** [session.post(url, data=data, timeout=t)]. *)
Definition session_post (url : string) (data : gmap string pyval)
    (timeout : Z) : M Response :=
  let* w := get_world in
  let (o, rest) := next_outcome w in
  let* _ := modify_world (fun w =>
    mkWorld rest (trace w ++ [EvPost url data timeout o]) (clock w) (heap w)) in
  of_outcome o.

(** [response.json()]. *)
Definition response_json (r : Response) : M pyval :=
  match body r with
  | Some v => ret v
  | None => raise JSONDecodeError
  end.

(** [time.time()] and [time.sleep(secs)]. *)
Definition time_time : M Q := let* w := get_world in ret (clock w).

Definition time_sleep (secs : Q) : M unit :=
  modify_world (fun w =>
    mkWorld (script w) (trace w ++ [EvSleep secs]) (clock w + secs)%Q (heap w)).

(** The world after [params[key] = v] on the dict behind [params]: the
    object is updated in place, every holder of the reference sees it. *)
Definition with_item (w : world) (params : loc) (key : string) (v : pyval)
    : world :=
  mkWorld (script w) (trace w) (clock w)
    (<[params := <[key := v]> (deref w params)]> (heap w)).

(** [params[key] = v]. *)
Definition dict_setitem (params : loc) (key : string) (v : pyval) : M unit :=
  modify_world (fun w => with_item w params key v).

(** A dict display [{...}]: a new object. *)
Definition new_dict (d : gmap string pyval) : M loc :=
  let* w := get_world in
  let* _ := modify_world (fun w =>
    mkWorld (script w) (trace w) (clock w) (heap w ++ [d])) in
  ret (length (heap w)).

(** Calling the registered callback: it is seen by the world, and may
    raise. *)
Definition call_callback (cb : pyval -> option exn) (token : pyval) : M unit :=
  let* _ := modify_world (fun w =>
    mkWorld (script w) (trace w ++ [EvCallback token]) (clock w) (heap w)) in
  match cb token with
  | Some e => raise e
  | None => ret tt
  end.

(* --------------------------------------------------------------------- *)
(* 6. HelixAPI: construction, token refresh, rate limit                   *)
(* --------------------------------------------------------------------- *)

(** [HelixAPI._setup_http_client]. *)
Definition _setup_http_client : Session :=
  mkSession 5 [500; 502; 503; 504]
    ["HEAD"; "GET"; "PUT"; "DELETE"; "OPTIONS"; "TRACE"; "POST"] 1.

(** [HelixAPI._wait_for_rate_limit_reset].  Times are seconds, as exact
    rationals in place of Python's floats. *)
Definition _wait_for_rate_limit_reset : M unit :=
  let* o := get_self in
  if negb (py_eq_int (_ratelimit_remaining o) 0) then
    raise (Exception "Request returned 429 but rate limit is not 0...?")
  else
    let* current_time := time_time in
    let* reset_time := lift (py_int (_ratelimit_reset_timestamp o)) in
    let wait_time := ((1 # 10) + inject_Z reset_time - current_time)%Q in
    if negb (Qle_bool wait_time 0) then time_sleep wait_time else ret tt.

(** [HelixAPI._refresh_access_token].  The statement
    [response.raise_for_status] of the source names the method without
    calling it, so it does nothing. *)
Definition _refresh_access_token : M unit :=
  let* o := get_self in
  let post_data : gmap string pyval :=
    {[ "client_id" := PyStr (client_id o);
       "client_secret" := PyStr (client_secret o);
       "grant_type" := PyStr "client_credentials" ]} in
  let* _ := attr_http in
  let* response := session_post TOKEN_URL post_data 2 in
  let* response_data := response_json response in
  let* token := lift (py_getitem response_data "access_token") in
  let* _ := modify_self (set_access_token token) in
  let* h := attr_headers in
  let* _ := modify_self (set_headers (<["Authorization" := HBearer token]> h)) in
  let* _ := match access_token_refresh_callback o with
            | Some cb => call_callback cb token
            | None => ret tt
            end in
  modify_self (set__access_token_refreshed true).

(** The call [self._refresh_access_token()]: an instance attribute of that
    name hides the method, and a bool is not callable. *)
Definition call__refresh_access_token : M unit :=
  let* o := get_self in
  match _refresh_access_token_attr o with
  | Some _ => raise (TypeError "'bool' object is not callable")
  | None => _refresh_access_token
  end.

(** [HelixAPI.__init__], run on a new object: the attributes it has not
    assigned yet are unset, the rate-limit attributes read as the values of
    the class. *)
Definition __init__ (cid csecret : string) (token : pyval)
    (callback : option (pyval -> option exn)) : M unit :=
  let* _ := modify_self (fun _ =>
    mkHelixAPI cid csecret callback false None None None (PyStr "0") (PyInt 0) None) in
  let* _ := if is_none token then call__refresh_access_token
            else modify_self (set_access_token token) in
  let* o := get_self in
  let* tok := match access_token o with
              | Some t => ret t
              | None => raise (AttributeError "'HelixAPI' object has no attribute 'access_token'")
              end in
  let* _ := modify_self (set_headers
    {[ "Client-ID" := HStr (client_id o); "Authorization" := HBearer tok ]}) in
  modify_self (set_http _setup_http_client).

(* --------------------------------------------------------------------- *)
(* 7. HelixAPI: one request, paginated requests                           *)
(* --------------------------------------------------------------------- *)

(** [HelixAPI._get_request].  [fuel] bounds the depth of the self-calls. *)
Fixpoint _get_request (fuel : nat) (endpoint : string) (params : loc) : M pyval :=
  match fuel with
  | O => diverge
  | S fuel' =>
      let* _ := attr_http in
      let* hdrs := attr_headers in
      let* response := session_get (BASE_URL +:+ endpoint) params hdrs in
      let* _ := modify_self (set__ratelimit_remaining
                  (headers_get (resp_headers response) "Ratelimit-Remaining")) in
      let* _ := modify_self (set__ratelimit_reset_timestamp
                  (headers_get (resp_headers response) "Ratelimit-Reset")) in
      if status_code response =? 200 then
        let* _ := modify_self (set__refresh_access_token (PyBool false)) in
        response_json response
      else if status_code response =? 429 then
        let* _ := _wait_for_rate_limit_reset in
        _get_request fuel' endpoint params
      else if status_code response =? 401 then
        let* o := get_self in
        if _access_token_refreshed o then raise (Exception "")
        else
          let* _ := call__refresh_access_token in
          _get_request fuel' endpoint params
      else raise (Exception "")
  end.

Definition cap_is_none (cap_records : option Z) : bool :=
  match cap_records with None => true | Some _ => false end.

(** The while loop of [_paginated_request]; [n] bounds its iterations. *)
Fixpoint paginate (n fuel : nat) (endpoint : string) (params : loc)
    (max_records_per_page : Z) (cap_records : option Z)
    (records_to_go : Z) (responses_data : list pyval) : M (list pyval) :=
  match n with
  | O => diverge
  | S n' =>
      if (records_to_go >? 0) || cap_is_none cap_records then
        let* _ := dict_setitem params "first"
                    (PyInt (Z.min max_records_per_page records_to_go)) in
        let* response := _get_request fuel endpoint params in
        let* data := lift (py_getitem response "data") in
        let* items := lift (py_iter data) in
        let responses_data := responses_data ++ items in
        let* len := lift (py_len data) in
        let records_to_go := records_to_go - len in
        let* stop := try_except
          (let* pagination := lift (py_getitem response "pagination") in
           let* _cursor := lift (py_getitem pagination "cursor") in
           let* _ := dict_setitem params "after" _cursor in
           ret false)
          (ret true) in
        if stop then ret responses_data
        else paginate n' fuel endpoint params max_records_per_page cap_records
               records_to_go responses_data
      else ret responses_data
  end.

(** [HelixAPI._paginated_request]. *)
Definition _paginated_request (fuel : nat) (endpoint : string) (params : loc)
    (max_records_per_page : Z) (cap_records : option Z) : M (list pyval) :=
  let records_to_go :=
    match cap_records with
    | None => max_records_per_page
    | Some cap => cap
    end in
  paginate fuel fuel endpoint params max_records_per_page cap_records
    records_to_go [].

(* --------------------------------------------------------------------- *)
(* 8. HelixAPI: the public query methods                                  *)
(* --------------------------------------------------------------------- *)

(* The methods of the class that are not below take no parameter and
   raise NotImplementedError. *)

(** A [datetime.datetime], as far as the code looks at it: the string
    [dt.astimezone().isoformat()]. *)
Record datetime : Type := mkDatetime { astimezone_isoformat : string }.

(** [datetime_to_str]. *)
Definition datetime_to_str (dt : option datetime) : pyval :=
  match dt with
  | Some d => PyStr (astimezone_isoformat d)
  | None => PyNone
  end.

(** [x is not None], as the int that [sum] adds. *)
Definition is_not_none (v : pyval) : Z := if is_none v then 0 else 1.

(** [len(v) if v is not None else 0]. *)
Definition len_or_0 (v : pyval) : result Z :=
  if is_none v then Ok 0 else py_len v.

(** [v is not None and len(v) > 100]. *)
Definition more_than_100 (v : pyval) : result bool :=
  if is_none v then Ok false
  else match py_len v with
       | Ok n => Ok (n >? 100)
       | Err e => Err e
       | Diverge => Diverge
       end.

(** [HelixAPI.get_clips]. *)
Definition get_clips (fuel : nat) (broadcaster_id game_id clip_id : pyval)
    (started_at ended_at : option datetime) (cap_records : option Z)
    : M (list pyval) :=
  let* too_many := lift (more_than_100 clip_id) in
  if too_many then
    raise (ValueError "A maximum of 100 clips can be queried in one call")
  else if negb (is_not_none clip_id + is_not_none broadcaster_id
                + is_not_none game_id =? 1) then
    raise (ValueError "The clip_id, broadcaster_id, and game_id parameters are mutually exclusive.")
  else
    let* params := new_dict
      {[ "broadcaster_id" := broadcaster_id;
         "game_id" := game_id;
         "id" := clip_id;
         "started_at" := datetime_to_str started_at;
         "ended_at" := datetime_to_str ended_at ]} in
    _paginated_request fuel "clips" params 100 cap_records.

(** [HelixAPI.get_top_games]. *)
Definition get_top_games (fuel : nat) (cap_records : option Z) : M (list pyval) :=
  let* params := new_dict ∅ in
  _paginated_request fuel "games/top" params 100 cap_records.

(** [HelixAPI.get_games]. *)
Definition get_games (fuel : nat) (game_ids names igdb_ids : pyval) : M pyval :=
  if is_none game_ids && is_none names && is_none igdb_ids then
    raise (ValueError "You have to specify a list of game IDs, names, or both.")
  else
    let* a := lift (len_or_0 game_ids) in
    let* b := lift (len_or_0 names) in
    let* c := lift (len_or_0 igdb_ids) in
    if a + b + c >? 100 then
      raise (ValueError "The sum total of the number of games you may look up is 100.")
    else
      let* params := new_dict
        {[ "id" := game_ids; "name" := names; "igdb_id" := igdb_ids ]} in
      _get_request fuel "games" params.

(** [HelixAPI.get_users]. *)
Definition get_users (fuel : nat) (user_ids logins : pyval) : M pyval :=
  if is_none user_ids && is_none logins then
    raise (ValueError "You have to specify a list of user IDs, login names, or both.")
  else if negb (isinstance_list user_ids || is_none user_ids) then
    raise (TypeError "user_ids has to be a list or None")
  else if negb (isinstance_list logins || is_none logins) then
    raise (TypeError "logins has to be a list or None")
  else
    let* a := lift (len_or_0 user_ids) in
    let* b := lift (len_or_0 logins) in
    if a + b >? 100 then
      raise (ValueError "The sum total of the number of users you may look up is 100.")
    else
      let* params := new_dict {[ "id" := user_ids; "logins" := logins ]} in
      let* response := _get_request fuel "users" params in
      lift (py_getitem response "data").

(** [HelixAPI.get_users_follows]. *)
Definition get_users_follows (fuel : nat) (from_id to_id : pyval)
    (cap_records : option Z) : M pyval :=
  if is_none from_id && is_none to_id then
    raise (ValueError "You must specify from_id, to_id, or both.")
  else
    let max_records_per_page := 100 in
    let* params := new_dict
      {[ "from_id" := from_id; "to_id" := to_id; "first" := PyInt 1 ]} in
    if default 1 cap_records >? max_records_per_page then
      let* _ := dict_setitem params "first" (PyInt (default 1 cap_records)) in
      _get_request fuel "users/follows" params
    else
      let* initial_response := _get_request fuel "users/follows" params in
      let* total := lift (py_getitem initial_response "total") in
      let* data := _paginated_request fuel "user/follows" params
                     max_records_per_page cap_records in
      ret (PyDict [("total", total); ("data", PyList data)]).

(** [HelixAPI.get_videos]. *)
Definition get_videos (fuel : nat) (video_ids user_id game_id language period
    sort video_type : pyval) (cap_records : option Z) : M pyval :=
  let* too_many := lift (more_than_100 video_ids) in
  if too_many then
    raise (ValueError "A maximum of 100 video IDs can be queried in one call")
  else if negb (is_not_none video_ids + is_not_none user_id
                + is_not_none game_id =? 1) then
    raise (ValueError "The id, user_id, and game_id parameters are mutually exclusive.")
  else if negb (is_none language) && is_none game_id then
    raise (ValueError "Specify language only if you specify the game_id query parameter.")
  else if negb (is_none period) && (is_none game_id && is_none user_id) then
    raise (ValueError "Specify period only if you specify the game_id or user_id query parameter.")
  else if negb (is_none sort) && (is_none game_id && is_none user_id) then
    raise (ValueError "Specify sort only if you specify the game_id or user_id query parameter.")
  else if negb (is_none video_type) && (is_none game_id && is_none user_id) then
    raise (ValueError "Specify video_type only if you specify the game_id or user_id query parameter.")
  else if negb (cap_is_none cap_records) && (is_none game_id && is_none user_id) then
    raise (ValueError "Specify cap_records only if you specify the game_id or user_id query parameter.")
  else
    let* params := new_dict
      {[ "id" := video_ids; "user_id" := user_id; "game_id" := game_id;
         "language" := language; "period" := period; "sort" := sort;
         "type" := video_type ]} in
    if negb (is_none video_ids) then
      let* response := _get_request fuel "videos" params in
      lift (py_getitem response "data")
    else
      let* data := _paginated_request fuel "videos" params 100 cap_records in
      ret (PyList data).

(* --------------------------------------------------------------------- *)
(* 9. Running the code; reading a trace                                   *)
(* --------------------------------------------------------------------- *)

(** A new object, before [__init__] has run. *)
Definition new_object : HelixAPI :=
  mkHelixAPI "" "" None false None None None (PyStr "0") (PyInt 0) None.

(** A world in which the transport will produce the given outcomes. *)
Definition world_of (outs : list outcome) (now : Q) : world :=
  mkWorld outs [] now [].

Definition is_get (e : event) : bool :=
  match e with EvGet _ _ _ _ => true | _ => false end.

Definition is_post (e : event) : bool :=
  match e with EvPost _ _ _ _ => true | _ => false end.

Definition is_sleep (e : event) : bool :=
  match e with EvSleep _ => true | _ => false end.

(** The query parameters of the GET requests of a trace, in order. *)
Definition get_params (t : list event) : list (gmap string pyval) :=
  omap (fun e => match e with EvGet _ p _ _ => Some p | _ => None end) t.

(** The bodies of the successful GET responses of a trace: the pages. *)
Definition ok_bodies (t : list event) : list pyval :=
  omap (fun e =>
    match e with
    | EvGet _ _ _ (Responds r) => if status_code r =? 200 then body r else None
    | _ => None
    end) t.

(** The continuation cursor of a page, as the loop reads it. *)
Definition cursor_of (response : pyval) : option pyval :=
  match py_getitem response "pagination" with
  | Ok pagination =>
      match py_getitem pagination "cursor" with
      | Ok c => Some c
      | _ => None
      end
  | _ => None
  end.

(** The records of a page, as the loop reads them. *)
Definition records_of (response : pyval) : list pyval :=
  match py_getitem response "data" with
  | Ok data => match py_iter data with Ok items => items | _ => [] end
  | _ => []
  end.

(** The client after it has recorded the rate-limit headers of a response
    (the two assignments that follow the GET in [_get_request]). *)
Definition observed (r : Response) (o : HelixAPI) : HelixAPI :=
  set__ratelimit_reset_timestamp (headers_get (resp_headers r) "Ratelimit-Reset")
    (set__ratelimit_remaining (headers_get (resp_headers r) "Ratelimit-Remaining") o).

(** The world after a GET has been sent and answered. *)
Definition after_get (w : world) (endpoint : string) (params : loc)
    (h : gmap string header_val) (out : outcome) (rest : list outcome) : world :=
  mkWorld rest
    (trace w ++ [EvGet (BASE_URL +:+ endpoint) (deref w params) h out])
    (clock w) (heap w).

(** A client whose constructor has completed can send requests. *)
Definition ready (o : HelixAPI) : Prop :=
  is_Some (http o) /\ is_Some (headers o).

(** The form posted to the token endpoint. *)
Definition post_data (o : HelixAPI) : gmap string pyval :=
  {[ "client_id" := PyStr (client_id o);
     "client_secret" := PyStr (client_secret o);
     "grant_type" := PyStr "client_credentials" ]}.

(** The client once a token is installed: attribute and header. *)
Definition installed (token : pyval) (h : gmap string header_val)
    (o : HelixAPI) : HelixAPI :=
  set_headers (<["Authorization" := HBearer token]> h) (set_access_token token o).

(** The world after the token exchange, and after the callback. *)
Definition after_post (w : world) (o : HelixAPI) (out : outcome)
    (rest : list outcome) : world :=
  mkWorld rest (trace w ++ [EvPost TOKEN_URL (post_data o) 2 out])
    (clock w) (heap w).

Definition after_callback (w : world) (token : pyval) : world :=
  mkWorld (script w) (trace w ++ [EvCallback token]) (clock w) (heap w).

(** The cursors carried by the pages of a trace, in order. *)
Definition cursors (t : list event) : list pyval :=
  omap cursor_of (ok_bodies t).

(** A body the loop accepts as a page: it has a [data] that can be
    iterated. *)
Definition is_page (b : pyval) : Prop :=
  exists data items, py_getitem b "data" = Ok data /\ py_iter data = Ok items.

(** The decoded body of an answer (None for a body that is not JSON). *)
Definition page_of (r : Response) : pyval := default PyNone (body r).

(** An answer that delivers a page. *)
Definition page_answer (r : Response) : Prop :=
  status_code r = 200 /\ exists b, body r = Some b /\ is_page b.

(** The records of a sequence of answers, and their number: the sum of the
    per-page record counts. *)
Definition records_of_pages (rs : list Response) : list pyval :=
  concat (map (fun r => records_of (page_of r)) rs).

Fixpoint record_count (rs : list Response) : Z :=
  match rs with
  | [] => 0
  | r :: rest => Z.of_nat (length (records_of (page_of r))) + record_count rest
  end.

(** The loop has stopped after [k] of the pages [rs] under the cap [cap]:
    before each of the [k] requests the cap was not reached, and after the
    last one either the pages are used up (the last page has no cursor) or
    the cap is reached. *)
Definition stops_after (cap : Z) (rs : list Response) (k : nat) : Prop :=
  (k <= length rs)%nat
  /\ (forall j, (j < k)%nat -> record_count (take j rs) < cap)
  /\ (k = length rs \/ cap <= record_count (take k rs)).

(** A stretch of trace without a GET request. *)
Definition no_gets (t : list event) : Prop :=
  Forall (fun e => is_get e = false) t.

(** What [_get_request] leaves behind: the dicts are as before; every GET
    it sent carried the caller's parameters as they were at the call; if it
    returns a body, that body is the one successful answer among them; and a
    client that is ready does send the request. *)
Definition get_request_post (endpoint : string) (params : loc) (fuel : nat)
    (o : HelixAPI) (w : world) (run : result pyval * state) : Prop :=
  heap (snd (snd run)) = heap w
  /\ exists t,
       trace (snd (snd run)) = trace w ++ t
       /\ Forall (fun p => p = deref w params) (get_params t)
       /\ (forall b, fst run = Ok b -> ok_bodies t = [b] /\ get_params t <> [])
       /\ (forall h, fuel <> O -> is_Some (http o) -> headers o = Some h ->
           exists out t',
             t = EvGet (BASE_URL +:+ endpoint) (deref w params) h out :: t').

(** The client carries its credential consistently: it has a session, a
    token, and headers whose Authorization entry is that token and whose
    Client-ID entry is the client id. *)
Definition authorized (o : HelixAPI) : Prop :=
  exists s h token,
    http o = Some s /\ headers o = Some h /\ access_token o = Some token
    /\ h !! "Authorization" = Some (HBearer token)
    /\ h !! "Client-ID" = Some (HStr (client_id o)).

(** The number of token exchanges in a stretch of trace. *)
Definition posts (t : list event) : nat :=
  length (filter (fun e => is_post e = true) t).


(** Two worlds hold the same dicts, but for the one behind [p]. *)
Definition same_except (p : loc) (w w' : world) : Prop :=
  length (heap w') = length (heap w)
  /\ forall l, l <> p -> heap w' !! l = heap w !! l.

(** A computation writes no dict but the one behind [p]. *)
Definition writes_only {A : Type} (p : loc) (m : M A) : Prop :=
  forall st, same_except p (snd st) (snd (snd (m st))).

(** The dicts that exist in [w] are the same in [w']. *)
Definition old_dicts_kept (w w' : world) : Prop :=
  forall l d, heap w !! l = Some d -> heap w' !! l = Some d.

(** A computation leaves the dicts that exist when it starts as they
    are. *)
Definition keeps_old {A : Type} (m : M A) : Prop :=
  forall st, old_dicts_kept (snd st) (snd (snd (m st))).

(** The world after a dict display has made a new dict. *)
Definition with_new_dict (w : world) (d : gmap string pyval) : world :=
  mkWorld (script w) (trace w) (clock w) (heap w ++ [d]).

(** An identifier argument of a query method: a list, or None. *)
Definition id_list (v : pyval) : Prop :=
  v = PyNone \/ exists xs, v = PyList xs.

(** The number of identifiers in such an argument. *)
Definition id_count (v : pyval) : Z :=
  match v with
  | PyList xs => Z.of_nat (length xs)
  | _ => 0
  end.

(** A call is rejected: it raises ValueError and leaves the client and the
    world (the transport, the trace of requests) as they were. *)
Definition rejected {A : Type} (m : M A) (st : state) : Prop :=
  exists msg, m st = (Err (ValueError msg), st).

(* --------------------------------------------------------------------- *)
(* Sample clients and answers                                             *)
(* --------------------------------------------------------------------- *)

Module Sample.

(** [HelixAPI("cid", "secret", access_token="t0", callback)] in a world
    whose transport will produce [outs] and in which the caller holds one
    empty dict. *)
Definition client (callback : option (pyval -> option exn))
    (outs : list outcome) : state :=
  snd (__init__ "cid" "secret" (PyStr "t0") callback
         (new_object, mkWorld outs [] 0 [∅])).

(** The caller's params dict of the sample world. *)
Definition params0 : loc := 0%nat.

Definition answer (status : Z) (hs : list (string * string)) (b : pyval)
    : outcome :=
  Responds (mkResponse status "" hs (Some b)).

Definition limits (remaining reset : string) : list (string * string) :=
  [("Ratelimit-Remaining", remaining); ("Ratelimit-Reset", reset)].

Definition token_body (t : string) : pyval :=
  PyDict [("access_token", PyStr t)].

Definition record (i : nat) : pyval :=
  PyDict [("id", PyInt (Z.of_nat i))].

(** A page of [n] records, with or without a cursor. *)
Definition page (n : nat) (cursor : option string) : pyval :=
  PyDict [("data", PyList (map record (seq 0 n)));
          ("pagination",
           PyDict match cursor with
                  | Some c => [("cursor", PyStr c)]
                  | None => []
                  end)].

Definition failing_callback (token : pyval) : option exn :=
  Some (UserError "cannot store the token").

Definition count (p : event -> bool) (st : state) : nat :=
  length (filter (fun e => p e = true) (trace (snd st))).

End Sample.

(* ===================================================================== *)
(* Properties                                                            *)
(* ===================================================================== *)

Ltac unfold_monad :=
  cbv beta iota zeta delta
    [bind ret raise diverge lift try_except get_self get_world
     modify_self modify_world attr_http attr_headers session_get
     session_post of_outcome response_json time_time time_sleep
     dict_setitem new_dict call_callback next_outcome fst snd] in *.

Section GetRequest.

Variables (fuel : nat) (endpoint : string) (params : loc).
Variables (o : HelixAPI) (w : world).
Variables (s : Session) (h : gmap string header_val).
Variables (r : Response) (rest : list outcome).
Hypothesis Hhttp : http o = Some s.
Hypothesis Hheaders : headers o = Some h.
Hypothesis Hscript : script w = Responds r :: rest.

(** A 200 answer: the body is returned, after the headers are recorded
    and the attribute [_refresh_access_token] is assigned False. *)
Lemma get_request_200 :
  status_code r = 200 ->
  _get_request (S fuel) endpoint params (o, w) =
    (match body r with Some b => Ok b | None => Err JSONDecodeError end,
     (set__refresh_access_token (PyBool false) (observed r o),
      after_get w endpoint params h (Responds r) rest)).
Proof.
  intros Hst. cbn [_get_request]. unfold_monad.
  rewrite Hhttp, Hheaders, Hscript. unfold_monad. rewrite Hst. simpl.
  destruct (body r); reflexivity.
Qed.

(** A 429 answer: the value just recorded for the remaining quota is a
    str or None, never the int 0, so the wait refuses to run. *)
Lemma get_request_429 :
  status_code r = 429 ->
  _get_request (S fuel) endpoint params (o, w) =
    (Err (Exception "Request returned 429 but rate limit is not 0...?"),
     (observed r o, after_get w endpoint params h (Responds r) rest)).
Proof.
  intros Hst. cbn [_get_request]. unfold_monad.
  rewrite Hhttp, Hheaders, Hscript. unfold_monad. rewrite Hst. simpl.
  unfold _wait_for_rate_limit_reset. unfold_monad. simpl.
  assert (Hne : forall hs n, py_eq_int (headers_get hs n) 0 = false).
  { intros hs n. induction hs as [|[k v] hs IH]; simpl; [reflexivity|].
    destruct (String.eqb (lower k) (lower n)); [reflexivity | exact IH]. }
  rewrite Hne. reflexivity.
Qed.

(** Any status other than 200, 429 and 401 is a bare Exception. *)
Lemma get_request_other :
  status_code r <> 200 -> status_code r <> 429 -> status_code r <> 401 ->
  _get_request (S fuel) endpoint params (o, w) =
    (Err (Exception ""),
     (observed r o, after_get w endpoint params h (Responds r) rest)).
Proof.
  intros H1 H2 H3. cbn [_get_request]. unfold_monad.
  rewrite Hhttp, Hheaders, Hscript. unfold_monad.
  apply Z.eqb_neq in H1, H2, H3. rewrite H1, H2, H3. reflexivity.
Qed.

(** A 401 answer on a client whose guard is already set: a bare
    Exception, and nothing more is sent. *)
Lemma get_request_401_guarded :
  status_code r = 401 -> _access_token_refreshed o = true ->
  _get_request (S fuel) endpoint params (o, w) =
    (Err (Exception ""),
     (observed r o, after_get w endpoint params h (Responds r) rest)).
Proof.
  intros Hst Hg. cbn [_get_request]. unfold_monad.
  rewrite Hhttp, Hheaders, Hscript. unfold_monad. rewrite Hst. simpl.
  rewrite Hg. reflexivity.
Qed.

(** A 401 answer on a client whose guard is clear: the refresh is
    called, and the request is sent again if the refresh returns. *)
Lemma get_request_401_refresh :
  status_code r = 401 -> _access_token_refreshed o = false ->
  _get_request (S fuel) endpoint params (o, w) =
    (let* _ := call__refresh_access_token in
     _get_request fuel endpoint params)
      (observed r o, after_get w endpoint params h (Responds r) rest).
Proof.
  intros Hst Hg. cbn [_get_request]. unfold_monad.
  rewrite Hhttp, Hheaders, Hscript. unfold_monad. rewrite Hst. simpl.
  rewrite Hg. reflexivity.
Qed.

End GetRequest.

(* --------------------------------------------------------------------- *)
(* The token refresh                                                      *)
(* --------------------------------------------------------------------- *)

Section Refresh.

Variables (o : HelixAPI) (w : world).
Variables (s : Session) (h : gmap string header_val).
Variables (r : Response) (rest : list outcome) (b token : pyval).
Hypothesis Hhttp : http o = Some s.
Hypothesis Hheaders : headers o = Some h.
Hypothesis Hscript : script w = Responds r :: rest.
Hypothesis Hbody : body r = Some b.

(** Whatever the status of the answer, a body without the key
    [access_token] ends the refresh with the lookup's exception. *)
Lemma refresh_no_token e :
  py_getitem b "access_token" = Err e ->
  _refresh_access_token (o, w) =
    (Err e, (o, after_post w o (Responds r) rest)).
Proof.
  intros Hk. unfold _refresh_access_token. unfold_monad.
  rewrite Hhttp, Hscript. unfold_monad. rewrite Hbody, Hk. reflexivity.
Qed.

Hypothesis Htoken : py_getitem b "access_token" = Ok token.

(** Without a callback the token of the body is installed and the guard
    is set; the status of the answer is never looked at. *)
Lemma refresh_without_callback :
  access_token_refresh_callback o = None ->
  _refresh_access_token (o, w) =
    (Ok tt, (set__access_token_refreshed true (installed token h o),
             after_post w o (Responds r) rest)).
Proof.
  intros Hcb. unfold _refresh_access_token. unfold_monad.
  rewrite Hhttp, Hscript. unfold_monad. rewrite Hbody, Htoken. simpl.
  rewrite Hheaders, Hcb. reflexivity.
Qed.

(** With a callback: it is called once the token is installed; the
    guard is set only if it returns. *)
Lemma refresh_with_callback cb :
  access_token_refresh_callback o = Some cb ->
  _refresh_access_token (o, w) =
    match cb token with
    | None =>
        (Ok tt, (set__access_token_refreshed true (installed token h o),
                 after_callback (after_post w o (Responds r) rest) token))
    | Some e =>
        (Err e, (installed token h o,
                 after_callback (after_post w o (Responds r) rest) token))
    end.
Proof.
  intros Hcb. unfold _refresh_access_token. unfold_monad.
  rewrite Hhttp, Hscript. unfold_monad. rewrite Hbody, Htoken. simpl.
  rewrite Hheaders, Hcb. unfold_monad.
  destruct (cb token); reflexivity.
Qed.

End Refresh.


(* --------------------------------------------------------------------- *)
(* Claims on the single request and on the refresh                        *)
(* --------------------------------------------------------------------- *)

(** C4 (the code departs from the claim).  On a 200 answer [_get_request]
    records the two rate-limit headers and returns the decoded body, but it
    does not reset the guard [_access_token_refreshed]: the guard keeps the
    value it had, and the assignment of the success branch lands on the
    attribute [_refresh_access_token], which from then on hides the refresh
    method behind [False]. *)
Theorem get_request_success_keeps_guard
    (fuel : nat) (endpoint : string) (params : loc) (o : HelixAPI) (w : world)
    (s : Session) (h : gmap string header_val) (r : Response)
    (rest : list outcome) (b : pyval) :
  http o = Some s -> headers o = Some h ->
  script w = Responds r :: rest ->
  status_code r = 200 -> body r = Some b ->
  exists o',
    _get_request (S fuel) endpoint params (o, w) =
      (Ok b, (o', after_get w endpoint params h (Responds r) rest))
    /\ _ratelimit_remaining o' = headers_get (resp_headers r) "Ratelimit-Remaining"
    /\ _ratelimit_reset_timestamp o' = headers_get (resp_headers r) "Ratelimit-Reset"
    /\ _access_token_refreshed o' = _access_token_refreshed o
    /\ _refresh_access_token_attr o' = Some (PyBool false)
    /\ access_token o' = access_token o /\ headers o' = headers o
    /\ http o' = http o.
Proof.
  intros Hhttp Hheaders Hscript Hst Hbody.
  eexists. split.
  - rewrite (get_request_200 fuel endpoint params o w s h r rest
               Hhttp Hheaders Hscript Hst), Hbody. reflexivity.
  - repeat split; reflexivity.
Qed.

(** A refresh has set the guard; the 200 answer that follows leaves it
    set and hides the refresh method. *)
Lemma get_request_success_keeps_guard_witness :
  let st := snd (_refresh_access_token
                   (Sample.client None
                      [Sample.answer 200 [] (Sample.token_body "t1");
                       Sample.answer 200 [] (Sample.page 0 None)])) in
  _access_token_refreshed (fst st) = true /\
  exists o',
    fst (snd (_get_request 1 "clips" Sample.params0 st)) = o'
    /\ _access_token_refreshed o' = true
    /\ _refresh_access_token_attr o' = Some (PyBool false).
Proof.
  intros st. split; [reflexivity|].
  destruct (get_request_success_keeps_guard 0 "clips" Sample.params0
              (fst st) (snd st) _setup_http_client
              (<["Authorization" := HBearer (PyStr "t1")]>
                 {[ "Client-ID" := HStr "cid";
                    "Authorization" := HBearer (PyStr "t0") ]})
              (mkResponse 200 "" [] (Some (Sample.page 0 None))) []
              (Sample.page 0 None))
    as (o' & Hrun & _ & _ & Hguard & Hattr & _);
    try reflexivity.
  exists o'. split.
  - replace st with (fst st, snd st) by (destruct st; reflexivity).
    rewrite Hrun. reflexivity.
  - split; [rewrite Hguard; reflexivity | exact Hattr].
Defined.

(** C9 (amended).  When the two rate-limit headers are absent from an
    answer (of any status but 401, after which the call may go on to
    further answers), [_get_request] overwrites both recorded values with
    None, whatever was recorded before. *)
Theorem absent_headers_recorded_as_none
    (fuel : nat) (endpoint : string) (params : loc) (o : HelixAPI) (w : world)
    (r : Response) (rest : list outcome) :
  ready o ->
  script w = Responds r :: rest ->
  status_code r <> 401 ->
  headers_get (resp_headers r) "Ratelimit-Remaining" = PyNone ->
  headers_get (resp_headers r) "Ratelimit-Reset" = PyNone ->
  let o' := fst (snd (_get_request (S fuel) endpoint params (o, w))) in
  _ratelimit_remaining o' = PyNone /\ _ratelimit_reset_timestamp o' = PyNone.
Proof.
  intros [[s Hhttp] [h Hheaders]] Hscript H401 Hrem Hreset.
  destruct (Z.eq_dec (status_code r) 200) as [H200|H200].
  - rewrite (get_request_200 fuel endpoint params o w s h r rest
               Hhttp Hheaders Hscript H200).
    simpl. rewrite Hrem, Hreset. split; reflexivity.
  - destruct (Z.eq_dec (status_code r) 429) as [H429|H429].
    + rewrite (get_request_429 fuel endpoint params o w s h r rest
                 Hhttp Hheaders Hscript H429).
      simpl. rewrite Hrem, Hreset. split; reflexivity.
    + rewrite (get_request_other fuel endpoint params o w s h r rest
                 Hhttp Hheaders Hscript H200 H429 H401).
      simpl. rewrite Hrem, Hreset. split; reflexivity.
Qed.

Lemma absent_headers_recorded_as_none_witness :
  let st := snd (_get_request 1 "clips" Sample.params0
                   (Sample.client None
                      [Sample.answer 200 (Sample.limits "5" "1700000000")
                         (Sample.page 0 None);
                       Sample.answer 200 [] (Sample.page 0 None)])) in
  _ratelimit_remaining (fst st) = PyStr "5" /\
  let o' := fst (snd (_get_request 1 "clips" Sample.params0 st)) in
  _ratelimit_remaining o' = PyNone /\ _ratelimit_reset_timestamp o' = PyNone.
Proof.
  intros st. split; [reflexivity|].
  replace st with (fst st, snd st) by (destruct st; reflexivity).
  apply (absent_headers_recorded_as_none 0 "clips" Sample.params0
           (fst st) (snd st)
           (mkResponse 200 "" [] (Some (Sample.page 0 None))) []).
  - split; eexists; reflexivity.
  - reflexivity.
  - discriminate.
  - reflexivity.
  - reflexivity.
Defined.

(** C9, as stated, fails: a recorded quota of "5" does not survive an
    answer without the headers. *)
Lemma absent_headers_not_a_noop :
  let st := snd (_get_request 1 "clips" Sample.params0
                   (Sample.client None
                      [Sample.answer 200 (Sample.limits "5" "1700000000")
                         (Sample.page 0 None);
                       Sample.answer 200 [] (Sample.page 0 None)])) in
  let st' := snd (_get_request 1 "clips" Sample.params0 st) in
  _ratelimit_remaining (fst st) = PyStr "5"
  /\ _ratelimit_reset_timestamp (fst st) = PyStr "1700000000"
  /\ _ratelimit_remaining (fst st') <> _ratelimit_remaining (fst st)
  /\ _ratelimit_reset_timestamp (fst st') <> _ratelimit_reset_timestamp (fst st).
Proof.
  repeat split; try reflexivity; vm_compute; discriminate.
Qed.

(** C2 (the code departs from the claim).  A 429 answer never leads to a
    wait or to a retry: the quota that [_get_request] has just recorded
    from the header is a str (or None), the guard of
    [_wait_for_rate_limit_reset] compares it with the int 0, and so the call
    ends with the Exception of that guard, also when the header was "0". *)
Theorem throttled_request_raises
    (fuel : nat) (endpoint : string) (params : loc) (o : HelixAPI) (w : world)
    (r : Response) (rest : list outcome) :
  ready o ->
  script w = Responds r :: rest ->
  status_code r = 429 ->
  exists o' w',
    _get_request (S fuel) endpoint params (o, w) =
      (Err (Exception "Request returned 429 but rate limit is not 0...?"),
       (o', w'))
    /\ filter (fun e => is_sleep e = true) (trace w')
       = filter (fun e => is_sleep e = true) (trace w)
    /\ length (get_params (trace w')) = S (length (get_params (trace w)))
    /\ script w' = rest.
Proof.
  intros [[s Hhttp] [h Hheaders]] Hscript H429.
  do 2 eexists. split.
  - apply (get_request_429 fuel endpoint params o w s h r rest
             Hhttp Hheaders Hscript H429).
  - simpl. split; [|split; [|reflexivity]].
    + rewrite filter_app. simpl.
      rewrite filter_cons_False by (simpl; discriminate).
      rewrite filter_nil. apply app_nil_r.
    + unfold get_params. rewrite omap_app, length_app. simpl. lia.
Qed.

(** The answer 429 with [Ratelimit-Remaining: 0] and a reset five seconds
    ahead: no sleep, one request, an Exception. *)
Lemma throttled_request_raises_witness :
  let st := Sample.client None
              [Sample.answer 429 (Sample.limits "0" "5") (PyDict []);
               Sample.answer 200 (Sample.limits "800" "65") (Sample.page 1 None)] in
  headers_get (Sample.limits "0" "5") "Ratelimit-Remaining" = PyStr "0" /\
  exists o' w',
    _get_request 2 "clips" Sample.params0 st =
      (Err (Exception "Request returned 429 but rate limit is not 0...?"),
       (o', w'))
    /\ filter (fun e => is_sleep e = true) (trace w') = []
    /\ length (get_params (trace w')) = 1%nat
    /\ script w' = [Sample.answer 200 (Sample.limits "800" "65") (Sample.page 1 None)].
Proof.
  intros st. split; [reflexivity|].
  replace st with (fst st, snd st) by (destruct st; reflexivity).
  apply (throttled_request_raises 1 "clips" Sample.params0 (fst st) (snd st)
           (mkResponse 429 "" (Sample.limits "0" "5") (Some (PyDict []))) _).
  - split; eexists; reflexivity.
  - reflexivity.
  - reflexivity.
Defined.


(** C3 (the code departs from the claim).  The token endpoint answers 400:
    the refresh does not look at the status.  With a body that has an
    [access_token] the refresh returns normally, the token of the body is
    installed and the guard is set; with the error body of the endpoint it
    ends with the KeyError of the lookup in the body. *)
Theorem refresh_ignores_status :
  let st := Sample.client None
              [Sample.answer 400 [] (Sample.token_body "t1")] in
  let st' := Sample.client None
               [Sample.answer 400 []
                  (PyDict [("status", PyInt 400);
                           ("message", PyStr "invalid client secret")])] in
  (fst (_refresh_access_token st) = Ok tt
   /\ access_token (fst (snd (_refresh_access_token st))) = Some (PyStr "t1")
   /\ _access_token_refreshed (fst (snd (_refresh_access_token st))) = true)
  /\ fst (_refresh_access_token st') = Err (KeyError "access_token").
Proof.
  repeat split; reflexivity.
Qed.

(** C8 (amended).  When the exchange yields a token and a callback is
    registered, the token is installed (attribute and Authorization header)
    and the callback is then called with it.  If the callback returns, the
    refresh completes and sets the guard.  If the callback raises, its
    exception leaves the refresh: the new token stays installed, the guard
    is not set. *)
Theorem refresh_callback_called_after_install
    (o : HelixAPI) (w : world) (s : Session) (h : gmap string header_val)
    (r : Response) (rest : list outcome) (b token : pyval)
    (cb : pyval -> option exn) :
  http o = Some s -> headers o = Some h ->
  script w = Responds r :: rest -> body r = Some b ->
  py_getitem b "access_token" = Ok token ->
  access_token_refresh_callback o = Some cb ->
  exists o' w',
    _refresh_access_token (o, w) =
      (match cb token with None => Ok tt | Some e => Err e end, (o', w'))
    /\ access_token o' = Some token
    /\ headers o' = Some (<["Authorization" := HBearer token]> h)
    /\ trace w' = trace w ++ [EvPost TOKEN_URL (post_data o) 2 (Responds r);
                              EvCallback token]
    /\ _access_token_refreshed o' =
         match cb token with
         | None => true
         | Some _ => _access_token_refreshed o
         end.
Proof.
  intros Hhttp Hheaders Hscript Hbody Htoken Hcb.
  rewrite (refresh_with_callback o w s h r rest b token
             Hhttp Hheaders Hscript Hbody Htoken cb Hcb).
  destruct (cb token); do 2 eexists; (split; [reflexivity|]);
    simpl; rewrite <- app_assoc; repeat split; reflexivity.
Qed.

Lemma refresh_callback_called_after_install_witness :
  let st := Sample.client (Some Sample.failing_callback)
              [Sample.answer 200 [] (Sample.token_body "t1")] in
  exists o' w',
    _refresh_access_token st =
      (Err (UserError "cannot store the token"), (o', w'))
    /\ access_token o' = Some (PyStr "t1")
    /\ _access_token_refreshed o' = false.
Proof.
  intros st.
  destruct (refresh_callback_called_after_install (fst st) (snd st)
              _setup_http_client
              {[ "Client-ID" := HStr "cid";
                 "Authorization" := HBearer (PyStr "t0") ]}
              (mkResponse 200 "" [] (Some (Sample.token_body "t1"))) []
              (Sample.token_body "t1") (PyStr "t1") Sample.failing_callback)
    as (o' & w' & Hrun & Htok & _ & _ & Hguard); try reflexivity.
  exists o', w'. split; [|split].
  - replace st with (fst st, snd st) by (destruct st; reflexivity).
    exact Hrun.
  - exact Htok.
  - exact Hguard.
Defined.

(** C8, as stated, fails: a callback that raises aborts the refresh. *)
Lemma refresh_aborted_by_failing_callback :
  let st := Sample.client (Some Sample.failing_callback)
              [Sample.answer 200 [] (Sample.token_body "t1")] in
  fst (_refresh_access_token st) <> Ok tt
  /\ fst (_refresh_access_token st) = Err (UserError "cannot store the token")
  /\ _access_token_refreshed (fst (snd (_refresh_access_token st))) = false.
Proof.
  repeat split; try reflexivity. vm_compute. discriminate.
Qed.

(** Within the first logical call of a client that was built with a token,
    the 401 handling is as intended: the first 401 is followed by one token
    exchange and the same request again; a second 401 ends the call with the
    bare Exception and nothing further is sent. *)
Lemma first_call_refreshes_once
    (fuel : nat) (endpoint : string) (params : loc) (o : HelixAPI) (w : world)
    (s : Session) (h : gmap string header_val)
    (r1 rt r2 : Response) (rest : list outcome) (bt token : pyval) :
  http o = Some s -> headers o = Some h ->
  _access_token_refreshed o = false ->
  _refresh_access_token_attr o = None ->
  access_token_refresh_callback o = None ->
  script w = Responds r1 :: Responds rt :: Responds r2 :: rest ->
  status_code r1 = 401 ->
  body rt = Some bt -> py_getitem bt "access_token" = Ok token ->
  status_code r2 = 401 ->
  exists o' w',
    _get_request (S (S fuel)) endpoint params (o, w) = (Err (Exception ""), (o', w'))
    /\ script w' = rest
    /\ access_token o' = Some token
    /\ trace w' = trace w ++
         [EvGet (BASE_URL +:+ endpoint) (deref w params) h (Responds r1);
          EvPost TOKEN_URL (post_data o) 2 (Responds rt);
          EvGet (BASE_URL +:+ endpoint) (deref w params)
            (<["Authorization" := HBearer token]> h) (Responds r2)].
Proof.
  intros Hhttp Hheaders Hguard Hattr Hcb Hscript H1 Hbt Htok H2.
  rewrite (get_request_401_refresh (S fuel) endpoint params o w s h r1 _
             Hhttp Hheaders Hscript H1 Hguard).
  unfold bind at 1. unfold call__refresh_access_token at 1.
  unfold bind at 1. unfold get_self at 1. cbn [fst snd].
  replace (_refresh_access_token_attr (observed r1 o)) with (@None pyval)
    by (symmetry; exact Hattr).
  erewrite (refresh_without_callback (observed r1 o) _ s h rt
              (Responds r2 :: rest) bt token); try reflexivity; try assumption.
  cbn [fst snd].
  rewrite (get_request_401_guarded fuel endpoint params _ _ s
             (<["Authorization" := HBearer token]> h) r2 rest);
    try reflexivity; try assumption.
  do 2 eexists. split; [reflexivity|].
  simpl. repeat split. rewrite <- !app_assoc. reflexivity.
Qed.

(** C1 (the code departs from the claim).  The guard is an attribute of the
    client that no success resets, and the success branch hides the refresh
    method; so the first 401 of a later logical call is not followed by a
    refresh.  (a) After a call answered 200, a 401 ends the next call with a
    TypeError and no token exchange.  (b) After a call that went through
    401, refresh, 200, the first 401 of the next call ends it with the bare
    Exception at once, again without a token exchange.  (c) A client built
    without a token cannot be built: the constructor calls the refresh before
    the session exists. *)
Theorem later_call_401_not_refreshed :
  (let st := Sample.client None
               [Sample.answer 200 [] (Sample.page 1 None);
                Sample.answer 401 [] (PyDict []);
                Sample.answer 200 [] (Sample.token_body "t1");
                Sample.answer 200 [] (Sample.page 1 None)] in
   let c1 := _get_request 2 "clips" Sample.params0 st in
   let c2 := _get_request 2 "clips" Sample.params0 (snd c1) in
   fst c1 = Ok (Sample.page 1 None)
   /\ fst c2 = Err (TypeError "'bool' object is not callable")
   /\ Sample.count is_post (snd c2) = 0%nat
   /\ Sample.count is_get (snd c2) = 2%nat)
  /\
  (let st := Sample.client None
               [Sample.answer 401 [] (PyDict []);
                Sample.answer 200 [] (Sample.token_body "t1");
                Sample.answer 200 [] (Sample.page 1 None);
                Sample.answer 401 [] (PyDict []);
                Sample.answer 200 [] (Sample.token_body "t2");
                Sample.answer 200 [] (Sample.page 1 None)] in
   let c1 := _get_request 2 "clips" Sample.params0 st in
   let c2 := _get_request 2 "clips" Sample.params0 (snd c1) in
   fst c1 = Ok (Sample.page 1 None)
   /\ Sample.count is_post (snd c1) = 1%nat
   /\ fst c2 = Err (Exception "")
   /\ Sample.count is_post (snd c2) = 1%nat
   /\ Sample.count is_get (snd c2) = 3%nat)
  /\
  fst (__init__ "cid" "secret" PyNone None
         (new_object,
          world_of [Sample.answer 200 [] (Sample.token_body "t1")] 0))
    = Err (AttributeError "'HelixAPI' object has no attribute 'http'").
Proof.
  repeat split; vm_compute; reflexivity.
Qed.

(* --------------------------------------------------------------------- *)
(* Parameter checks of the public query methods                           *)
(* --------------------------------------------------------------------- *)

Lemma more_than_100_id_list (v : pyval) :
  id_list v -> more_than_100 v = Ok (id_count v >? 100).
Proof.
  intros [-> | [xs ->]]; reflexivity.
Qed.

Lemma len_or_0_id_list (v : pyval) :
  id_list v -> len_or_0 v = Ok (id_count v).
Proof.
  intros [-> | [xs ->]]; reflexivity.
Qed.

Lemma id_list_shape (v : pyval) :
  id_list v -> (isinstance_list v || is_none v) = true.
Proof.
  intros [-> | [xs ->]]; reflexivity.
Qed.

Section Validation.

Variables (fuel : nat) (st : state).

Lemma get_clips_too_many b g c sa ea cap :
  id_list c -> id_count c > 100 ->
  rejected (get_clips fuel b g c sa ea cap) st.
Proof.
  intros Hc Hn. eexists. unfold get_clips. unfold_monad.
  rewrite (more_than_100_id_list c Hc).
  replace (id_count c >? 100) with true by (symmetry; apply Z.gtb_lt; lia).
  reflexivity.
Qed.

Lemma get_clips_selectors b g c sa ea cap :
  id_list c ->
  is_not_none c + is_not_none b + is_not_none g <> 1 ->
  rejected (get_clips fuel b g c sa ea cap) st.
Proof.
  intros Hc Hsel. unfold rejected, get_clips. unfold_monad.
  rewrite (more_than_100_id_list c Hc).
  destruct (id_count c >? 100); [eexists; reflexivity|].
  apply Z.eqb_neq in Hsel. rewrite Hsel. eexists; reflexivity.
Qed.

Lemma get_videos_too_many v u g la pe so ty cap :
  id_list v -> id_count v > 100 ->
  rejected (get_videos fuel v u g la pe so ty cap) st.
Proof.
  intros Hv Hn. eexists. unfold get_videos. unfold_monad.
  rewrite (more_than_100_id_list v Hv).
  replace (id_count v >? 100) with true by (symmetry; apply Z.gtb_lt; lia).
  reflexivity.
Qed.

Lemma get_videos_selectors v u g la pe so ty cap :
  id_list v ->
  is_not_none v + is_not_none u + is_not_none g <> 1 ->
  rejected (get_videos fuel v u g la pe so ty cap) st.
Proof.
  intros Hv Hsel. unfold rejected, get_videos. unfold_monad.
  rewrite (more_than_100_id_list v Hv).
  destruct (id_count v >? 100); [eexists; reflexivity|].
  apply Z.eqb_neq in Hsel. rewrite Hsel. eexists; reflexivity.
Qed.

Lemma get_games_none :
  rejected (get_games fuel PyNone PyNone PyNone) st.
Proof. eexists. reflexivity. Qed.

Lemma get_games_too_many ids names igdb :
  id_list ids -> id_list names -> id_list igdb ->
  id_count ids + id_count names + id_count igdb > 100 ->
  rejected (get_games fuel ids names igdb) st.
Proof.
  intros Hi Hn Hg Hsum. unfold rejected, get_games.
  destruct (is_none ids && is_none names && is_none igdb);
    [eexists; reflexivity|].
  unfold_monad.
  rewrite (len_or_0_id_list _ Hi), (len_or_0_id_list _ Hn),
    (len_or_0_id_list _ Hg).
  replace (id_count ids + id_count names + id_count igdb >? 100) with true
    by (symmetry; apply Z.gtb_lt; lia).
  eexists; reflexivity.
Qed.

Lemma get_users_none :
  rejected (get_users fuel PyNone PyNone) st.
Proof. eexists. reflexivity. Qed.

Lemma get_users_too_many ids logins :
  id_list ids -> id_list logins ->
  id_count ids + id_count logins > 100 ->
  rejected (get_users fuel ids logins) st.
Proof.
  intros Hi Hl Hsum. unfold rejected, get_users.
  destruct (is_none ids && is_none logins); [eexists; reflexivity|].
  rewrite (id_list_shape _ Hi), (id_list_shape _ Hl). cbn [negb].
  unfold_monad.
  rewrite (len_or_0_id_list _ Hi), (len_or_0_id_list _ Hl).
  replace (id_count ids + id_count logins >? 100) with true
    by (symmetry; apply Z.gtb_lt; lia).
  eexists; reflexivity.
Qed.

Lemma get_users_follows_none cap :
  rejected (get_users_follows fuel PyNone PyNone cap) st.
Proof. eexists. reflexivity. Qed.

End Validation.

(** C7.  A query method called with more than 100 identifiers, with a
    number of the exclusive selectors other than one (clips, videos), or
    with no selector at all (games, users, follows) raises ValueError, the
    validation error of the code, and leaves the client and the world as
    they were: no request has been sent. *)
Theorem invalid_parameters_rejected (fuel : nat) (st : state) :
  (forall b g c sa ea cap,
      id_list c ->
      id_count c > 100 \/ is_not_none c + is_not_none b + is_not_none g <> 1 ->
      rejected (get_clips fuel b g c sa ea cap) st)
  /\ (forall v u g la pe so ty cap,
      id_list v ->
      id_count v > 100 \/ is_not_none v + is_not_none u + is_not_none g <> 1 ->
      rejected (get_videos fuel v u g la pe so ty cap) st)
  /\ (forall ids names igdb,
      id_list ids -> id_list names -> id_list igdb ->
      id_count ids + id_count names + id_count igdb > 100
      \/ (ids = PyNone /\ names = PyNone /\ igdb = PyNone) ->
      rejected (get_games fuel ids names igdb) st)
  /\ (forall ids logins,
      id_list ids -> id_list logins ->
      id_count ids + id_count logins > 100
      \/ (ids = PyNone /\ logins = PyNone) ->
      rejected (get_users fuel ids logins) st)
  /\ (forall from_id to_id cap,
      from_id = PyNone /\ to_id = PyNone ->
      rejected (get_users_follows fuel from_id to_id cap) st).
Proof.
  repeat split.
  - intros b g c sa ea cap Hc [Hn | Hsel].
    + apply get_clips_too_many; assumption.
    + apply get_clips_selectors; assumption.
  - intros v u g la pe so ty cap Hv [Hn | Hsel].
    + apply get_videos_too_many; assumption.
    + apply get_videos_selectors; assumption.
  - intros ids names igdb Hi Hn Hg [Hsum | (-> & -> & ->)].
    + apply get_games_too_many; assumption.
    + apply get_games_none.
  - intros ids logins Hi Hl [Hsum | (-> & ->)].
    + apply get_users_too_many; assumption.
    + apply get_users_none.
  - intros from_id to_id cap (-> & ->). apply get_users_follows_none.
Qed.

(** 101 clip ids; a broadcaster and a game at once; no selector. *)
Lemma invalid_parameters_rejected_witness :
  let st := Sample.client None [Sample.answer 200 [] (Sample.page 1 None)] in
  let ids := PyList (map (fun i => PyStr "id") (seq 0 101)) in
  rejected (get_clips 3 PyNone PyNone ids None None None) st
  /\ rejected (get_clips 3 (PyStr "123") (PyStr "9") PyNone None None None) st
  /\ rejected (get_videos 3 PyNone PyNone PyNone PyNone PyNone PyNone PyNone None) st
  /\ rejected (get_games 3 ids PyNone PyNone) st
  /\ rejected (get_users 3 PyNone PyNone) st
  /\ rejected (get_users_follows 3 PyNone PyNone (Some 1)) st.
Proof.
  intros st ids.
  destruct (invalid_parameters_rejected 3 st) as (Hc & Hv & Hg & Hu & Hf).
  repeat split.
  - apply Hc; [right; eexists; reflexivity | left; vm_compute; reflexivity].
  - apply Hc; [left; reflexivity | right; vm_compute; discriminate].
  - apply Hv; [left; reflexivity | right; vm_compute; discriminate].
  - apply Hg; try (left; reflexivity). right; eexists; reflexivity.
  - apply Hu; try (left; reflexivity). right; split; reflexivity.
  - apply Hf. split; reflexivity.
Defined.

(* --------------------------------------------------------------------- *)
(* The pagination loop                                                    *)
(* --------------------------------------------------------------------- *)

Lemma length_chars (s : string) : length (chars s) = String.length s.
Proof.
  induction s as [|c s IH]; simpl; [reflexivity | rewrite IH; reflexivity].
Qed.

Lemma py_len_iter (data : pyval) (items : list pyval) :
  py_iter data = Ok items -> py_len data = Ok (Z.of_nat (length items)).
Proof.
  destruct data; simpl; intros H; inversion H; subst; clear H.
  - rewrite length_chars. reflexivity.
  - reflexivity.
  - rewrite length_map. reflexivity.
Qed.

Lemma records_of_page (b data : pyval) (items : list pyval) :
  py_getitem b "data" = Ok data -> py_iter data = Ok items ->
  records_of b = items.
Proof.
  intros Hd Hi. unfold records_of. rewrite Hd, Hi. reflexivity.
Qed.

Lemma py_getitem_returns (v : pyval) (key : string) :
  py_getitem v key <> Diverge.
Proof.
  destruct v; simpl; try discriminate.
  destruct (assoc_get key items); discriminate.
Qed.

Lemma page_of_body (r : Response) (b : pyval) :
  body r = Some b -> page_of r = b.
Proof. intros H. unfold page_of. rewrite H. reflexivity. Qed.

(** One turn of the loop on an answer that delivers a page. *)
Lemma paginate_step
    (n fuel : nat) (endpoint : string) (params : loc) (maxp : Z)
    (cap : option Z) (to_go : Z) (acc : list pyval)
    (o : HelixAPI) (w : world) (s : Session) (h : gmap string header_val)
    (r : Response) (rest : list outcome) :
  http o = Some s -> headers o = Some h ->
  script w = Responds r :: rest ->
  page_answer r ->
  (to_go >? 0) || cap_is_none cap = true ->
  let o' := set__refresh_access_token (PyBool false) (observed r o) in
  let w' := after_get (with_item w params "first" (PyInt (Z.min maxp to_go)))
              endpoint params h (Responds r) rest in
  let acc' := acc ++ records_of (page_of r) in
  paginate (S n) (S fuel) endpoint params maxp cap to_go acc (o, w) =
    match cursor_of (page_of r) with
    | Some c =>
        paginate n (S fuel) endpoint params maxp cap
          (to_go - Z.of_nat (length (records_of (page_of r)))) acc'
          (o', with_item w' params "after" c)
    | None => (Ok acc', (o', w'))
    end.
Proof.
  intros Hhttp Hheaders Hscript (Hst & b & Hbody & data & items & Hdata & Hitems)
    Hcond o' w' acc'.
  cbn [paginate]. rewrite Hcond.
  unfold bind at 1. unfold dict_setitem at 1, modify_world at 1. cbn [fst snd].
  unfold bind at 1.
  rewrite (get_request_200 fuel endpoint params o
             (with_item w params "first" (PyInt (Z.min maxp to_go)))
             s h r rest Hhttp Hheaders Hscript Hst).
  rewrite Hbody. fold o' w'.
  subst acc'. rewrite (page_of_body r b Hbody).
  rewrite (records_of_page b data items Hdata Hitems).
  unfold cursor_of.
  unfold_monad. rewrite Hdata, Hitems, (py_len_iter data items Hitems).
  pose proof (py_getitem_returns b "pagination") as Hpg.
  destruct (py_getitem b "pagination") as [pg| |]; try reflexivity;
    [|contradiction].
  pose proof (py_getitem_returns pg "cursor") as Hc.
  destruct (py_getitem pg "cursor") as [c| |]; try reflexivity.
  contradiction.
Qed.

Lemma stops_after_zero (to_go : Z) (rs : list Response) :
  to_go <= 0 -> stops_after to_go rs 0.
Proof.
  intros H. repeat split.
  - lia.
  - intros j Hj. lia.
  - right. rewrite take_0. simpl. exact H.
Qed.

Lemma stops_after_nil (to_go : Z) : stops_after to_go [] 0.
Proof.
  repeat split; [simpl; lia | intros j Hj; lia | left; reflexivity].
Qed.

Lemma stops_after_cons (to_go : Z) (p : Response) (rs : list Response) (k : nat) :
  0 < to_go ->
  stops_after (to_go - Z.of_nat (length (records_of (page_of p)))) rs k ->
  stops_after to_go (p :: rs) (S k).
Proof.
  intros Hpos (Hk & Hbefore & Hstop). repeat split.
  - simpl. lia.
  - intros [|j] Hj; simpl; [lia|].
    specialize (Hbefore j ltac:(lia)). lia.
  - destruct Hstop as [-> | Hcap]; [left; reflexivity | right; simpl; lia].
Qed.

Lemma get_params_snoc (t : list event) (e : event) :
  is_get e = true -> length (get_params (t ++ [e])) = S (length (get_params t)).
Proof.
  intros H. unfold get_params. rewrite omap_app, length_app.
  destruct e; try discriminate H. simpl. lia.
Qed.

(** The loop under a cap, against a server that delivers the pages
    [front ++ [last]], each but the last with a cursor. *)
Lemma paginate_capped_pages
    (fuel : nat) (endpoint : string) (params : loc) (maxp cap : Z)
    (s : Session) (h : gmap string header_val) (rest : list outcome)
    (last : Response) :
  cursor_of (page_of last) = None ->
  forall (front : list Response) (n : nat) (to_go : Z) (acc : list pyval)
         (o : HelixAPI) (w : world),
  http o = Some s -> headers o = Some h ->
  script w = map Responds (front ++ [last]) ++ rest ->
  Forall page_answer (front ++ [last]) ->
  Forall (fun r => cursor_of (page_of r) <> None) front ->
  (length (front ++ [last]) < n)%nat ->
  exists k o' w',
    paginate n (S fuel) endpoint params maxp (Some cap) to_go acc (o, w) =
      (Ok (acc ++ records_of_pages (take k (front ++ [last]))), (o', w'))
    /\ stops_after to_go (front ++ [last]) k
    /\ length (get_params (trace w')) = (length (get_params (trace w)) + k)%nat
    /\ script w' = map Responds (drop k (front ++ [last])) ++ rest.
Proof.
  intros Hlast front.
  induction front as [|p front IH];
    intros n to_go acc o w Hhttp Hheaders Hscript Hpages Hcursors Hn.
  - (* the last page *)
    destruct n as [|n]; [simpl in Hn; lia|].
    destruct (to_go >? 0) eqn:Hgo.
    + exists 1%nat. do 2 eexists. split.
      * rewrite (paginate_step n fuel endpoint params maxp (Some cap) to_go acc
                   o w s h last rest Hhttp Hheaders Hscript).
        -- rewrite Hlast. simpl. unfold records_of_pages. simpl.
           rewrite app_nil_r. reflexivity.
        -- inversion Hpages; assumption.
        -- rewrite Hgo. reflexivity.
      * split; [|split].
        -- apply Z.gtb_lt in Hgo.
           apply (stops_after_cons to_go last [] 0); [lia|].
           apply stops_after_nil.
        -- simpl. rewrite get_params_snoc by reflexivity. lia.
        -- reflexivity.
    + exists 0%nat, o, w. split; [|split; [|split]].
      * cbn [paginate]. rewrite Hgo. simpl. rewrite app_nil_r. reflexivity.
      * apply stops_after_zero. destruct (Z.gtb_spec to_go 0); [discriminate | lia].
      * lia.
      * exact Hscript.
  - (* a page with a cursor *)
    destruct n as [|n]; [simpl in Hn; lia|].
    destruct (to_go >? 0) eqn:Hgo.
    + inversion Hpages as [|? ? Hp Hpages']; subst.
      inversion Hcursors as [|? ? Hc Hcursors']; subst.
      destruct (cursor_of (page_of p)) as [c|] eqn:Hcur; [|contradiction].
      pose proof (paginate_step n fuel endpoint params maxp (Some cap) to_go acc
                    o w s h p (map Responds (front ++ [last]) ++ rest)
                    Hhttp Hheaders Hscript Hp) as Hstep.
      rewrite Hgo in Hstep. specialize (Hstep eq_refl).
      cbv zeta in Hstep. rewrite Hcur in Hstep.
      edestruct (IH n (to_go - Z.of_nat (length (records_of (page_of p))))
                   (acc ++ records_of (page_of p)))
        as (k & o' & w' & Hrun & Hstop & Hgets & Hrest);
        [ | | | exact Hpages' | exact Hcursors' | simpl in Hn; lia | ].
      4: { exists (S k), o', w'. split; [|split; [|split]].
           - rewrite Hstep, Hrun. simpl. unfold records_of_pages. simpl.
             rewrite <- app_assoc. reflexivity.
           - apply Z.gtb_lt in Hgo. apply stops_after_cons; [lia | exact Hstop].
           - rewrite Hgets. simpl. rewrite get_params_snoc by reflexivity. lia.
           - exact Hrest. }
      * exact Hhttp.
      * exact Hheaders.
      * reflexivity.
    + exists 0%nat, o, w. split; [|split; [|split]].
      * cbn [paginate]. rewrite Hgo. simpl. rewrite app_nil_r. reflexivity.
      * apply stops_after_zero. destruct (Z.gtb_spec to_go 0); [discriminate | lia].
      * lia.
      * exact Hscript.
Qed.

Lemma length_records_of_pages (rs : list Response) :
  Z.of_nat (length (records_of_pages rs)) = record_count rs.
Proof.
  induction rs as [|r rs IH]; [reflexivity|].
  unfold records_of_pages in *. simpl. rewrite length_app. lia.
Qed.

(** [_paginated_request] under a cap, against a server that delivers the
    pages [front ++ [last]], each but the last with a cursor. *)
Lemma paginated_request_capped
    (fuel : nat) (endpoint : string) (params : loc) (maxp cap : Z)
    (o : HelixAPI) (w : world) (front : list Response) (last : Response)
    (rest : list outcome) :
  ready o ->
  script w = map Responds (front ++ [last]) ++ rest ->
  Forall page_answer (front ++ [last]) ->
  Forall (fun r => cursor_of (page_of r) <> None) front ->
  cursor_of (page_of last) = None ->
  (length (front ++ [last]) < fuel)%nat ->
  exists k st',
    _paginated_request fuel endpoint params maxp (Some cap) (o, w) =
      (Ok (records_of_pages (take k (front ++ [last]))), st')
    /\ Z.of_nat (length (records_of_pages (take k (front ++ [last]))))
       = record_count (take k (front ++ [last]))
    /\ stops_after cap (front ++ [last]) k
    /\ length (get_params (trace (snd st')))
       = (length (get_params (trace w)) + k)%nat
    /\ script (snd st') = map Responds (drop k (front ++ [last])) ++ rest.
Proof.
  intros [[s Hhttp] [h Hheaders]] Hscript Hpages Hcursors Hlast Hfuel.
  destruct fuel as [|fuel]; [lia|].
  destruct (paginate_capped_pages fuel endpoint params maxp cap s h rest last
              Hlast front (S fuel) cap [] o w
              Hhttp Hheaders Hscript Hpages Hcursors Hfuel)
    as (k & o' & w' & Hrun & Hstop & Hgets & Hrest).
  exists k, (o', w'). split; [|split; [|split; [|split]]].
  - unfold _paginated_request. exact Hrun.
  - apply length_records_of_pages.
  - exact Hstop.
  - exact Hgets.
  - exact Hrest.
Qed.

(** C5.  Under a cap, against a server whose answers are pages that all
    but the last carry a cursor, [_paginated_request] returns the records of
    the first [k] pages, as many records as those pages count together,
    after exactly [k] requests, where [k] is the point at which the pages are
    used up or the cap is reached, whichever comes first.  In particular
    [get_clips(broadcaster_id="123", cap_records=250)] against pages of 100,
    100 and 50 records with the cursors "A", "B" and none returns 250 records
    after three requests, which ask for 100, 100 and 50 records. *)
Theorem paginated_request_collects_pages :
  (forall (fuel : nat) (endpoint : string) (params : loc) (maxp cap : Z)
          (o : HelixAPI) (w : world) (front : list Response) (last : Response)
          (rest : list outcome),
      ready o ->
      script w = map Responds (front ++ [last]) ++ rest ->
      Forall page_answer (front ++ [last]) ->
      Forall (fun r => cursor_of (page_of r) <> None) front ->
      cursor_of (page_of last) = None ->
      (length (front ++ [last]) < fuel)%nat ->
      exists k st',
        _paginated_request fuel endpoint params maxp (Some cap) (o, w) =
          (Ok (records_of_pages (take k (front ++ [last]))), st')
        /\ Z.of_nat (length (records_of_pages (take k (front ++ [last]))))
           = record_count (take k (front ++ [last]))
        /\ stops_after cap (front ++ [last]) k
        /\ length (get_params (trace (snd st')))
           = (length (get_params (trace w)) + k)%nat
        /\ script (snd st') = map Responds (drop k (front ++ [last])) ++ rest)
  /\
  (let st := Sample.client None
               [Sample.answer 200 [] (Sample.page 100 (Some "A"));
                Sample.answer 200 [] (Sample.page 100 (Some "B"));
                Sample.answer 200 [] (Sample.page 50 None)] in
   let run := get_clips 4 (PyStr "123") PyNone PyNone None None (Some 250) st in
   (exists records, fst run = Ok records /\ length records = 250%nat)
   /\ Sample.count is_get (snd run) = 3%nat
   /\ map (fun p => p !! "first") (get_params (trace (snd (snd run))))
      = [Some (PyInt 100); Some (PyInt 100); Some (PyInt 50)]
   /\ map (fun p => p !! "after") (get_params (trace (snd (snd run))))
      = [None; Some (PyStr "A"); Some (PyStr "B")]).
Proof.
  split.
  - intros. apply paginated_request_capped; assumption.
  - cbv zeta. split; [|split; [|split]].
    + eexists. split; [vm_compute; reflexivity | vm_compute; reflexivity].
    + vm_compute. reflexivity.
    + vm_compute. reflexivity.
    + vm_compute. reflexivity.
Qed.

(** Pages of 2, 2 and 1 records under a cap of 3: the loop stops after the
    second page, with 4 records and 2 requests. *)
Lemma paginated_request_collects_pages_witness :
  let p1 := mkResponse 200 "" [] (Some (Sample.page 2 (Some "A"))) in
  let p2 := mkResponse 200 "" [] (Some (Sample.page 2 (Some "B"))) in
  let p3 := mkResponse 200 "" [] (Some (Sample.page 1 None)) in
  let st := Sample.client None (map Responds [p1; p2; p3]) in
  exists k st',
    _paginated_request 4 "clips" Sample.params0 100 (Some 3) st =
      (Ok (records_of_pages (take k [p1; p2; p3])), st')
    /\ Z.of_nat (length (records_of_pages (take k [p1; p2; p3])))
       = record_count (take k [p1; p2; p3])
    /\ stops_after 3 [p1; p2; p3] k
    /\ length (get_params (trace (snd st'))) = (0 + k)%nat
    /\ script (snd st') = map Responds (drop k [p1; p2; p3]) ++ [].
Proof.
  intros p1 p2 p3 st.
  replace st with (fst st, snd st) by (destruct st; reflexivity).
  apply (proj1 paginated_request_collects_pages 4%nat "clips" Sample.params0
           100 3 (fst st) (snd st) [p1; p2] p3 []).
  - split; eexists; reflexivity.
  - reflexivity.
  - repeat constructor; eexists; (split; [reflexivity|]);
      do 2 eexists; split; reflexivity.
  - repeat constructor; discriminate.
  - reflexivity.
  - simpl. lia.
Defined.

(* --------------------------------------------------------------------- *)
(* What a call leaves behind: the trace grows, the dicts stay             *)
(* --------------------------------------------------------------------- *)

Lemma get_params_app (t1 t2 : list event) :
  get_params (t1 ++ t2) = get_params t1 ++ get_params t2.
Proof. unfold get_params. apply omap_app. Qed.

Lemma ok_bodies_app (t1 t2 : list event) :
  ok_bodies (t1 ++ t2) = ok_bodies t1 ++ ok_bodies t2.
Proof. unfold ok_bodies. apply omap_app. Qed.

Lemma no_gets_params (t : list event) : no_gets t -> get_params t = [].
Proof.
  induction 1 as [|e t He _ IH]; [reflexivity|].
  destruct e; try discriminate He; exact IH.
Qed.

Lemma no_gets_bodies (t : list event) : no_gets t -> ok_bodies t = [].
Proof.
  induction 1 as [|e t He _ IH]; [reflexivity|].
  destruct e; try discriminate He; exact IH.
Qed.

Ltac solve_frame :=
  cbv beta zeta; simpl; split; [reflexivity|];
  first [ exists []; split; [symmetry; apply app_nil_r | constructor]
        | eexists; split;
          [rewrite <- ?app_assoc; reflexivity | repeat constructor] ].

(** The wait touches no dict and sends nothing. *)
Lemma wait_frame (st : state) :
  let st' := snd (_wait_for_rate_limit_reset st) in
  heap (snd st') = heap (snd st)
  /\ exists t, trace (snd st') = trace (snd st) ++ t /\ no_gets t.
Proof.
  destruct st as [o w]. unfold _wait_for_rate_limit_reset. unfold_monad.
  destruct (negb (py_eq_int (_ratelimit_remaining o) 0)); [solve_frame|].
  destruct (py_int (_ratelimit_reset_timestamp o)); try solve_frame.
  match goal with |- context [negb (Qle_bool ?q 0)] =>
    destruct (negb (Qle_bool q 0)) end; solve_frame.
Qed.

(** The refresh touches no dict and sends no GET. *)
Lemma refresh_frame (st : state) :
  let st' := snd (_refresh_access_token st) in
  heap (snd st') = heap (snd st)
  /\ exists t, trace (snd st') = trace (snd st) ++ t /\ no_gets t.
Proof.
  destruct st as [o w]. unfold _refresh_access_token. unfold_monad.
  destruct (http o); [|solve_frame].
  destruct (script w) as [|[r|e] rest]; try solve_frame.
  destruct (body r) as [b|]; [|solve_frame].
  destruct (py_getitem b "access_token") as [token| |]; try solve_frame.
  simpl. destruct (headers o); [|solve_frame].
  destruct (access_token_refresh_callback o) as [cb|]; [|solve_frame].
  destruct (cb token); solve_frame.
Qed.

Lemma call_refresh_frame (st : state) :
  let st' := snd (call__refresh_access_token st) in
  heap (snd st') = heap (snd st)
  /\ exists t, trace (snd st') = trace (snd st) ++ t /\ no_gets t.
Proof.
  destruct st as [o w].
  assert (Hcall : call__refresh_access_token (o, w) =
                  match _refresh_access_token_attr o with
                  | Some _ => (Err (TypeError "'bool' object is not callable"), (o, w))
                  | None => _refresh_access_token (o, w)
                  end).
  { unfold call__refresh_access_token. unfold_monad.
    destruct (_refresh_access_token_attr o); reflexivity. }
  rewrite Hcall. destruct (_refresh_access_token_attr o).
  - solve_frame.
  - apply refresh_frame.
Qed.

(** A client without a session or without headers sends nothing. *)
Lemma get_request_unsent (fuel : nat) (endpoint : string) (params : loc)
    (o : HelixAPI) (w : world) :
  http o = None \/ headers o = None ->
  exists e, _get_request (S fuel) endpoint params (o, w) = (Err e, (o, w)).
Proof.
  intros H. cbn [_get_request]. unfold_monad.
  destruct (http o); [|eexists; reflexivity].
  destruct H as [H|H]; [discriminate H|]. rewrite H. eexists; reflexivity.
Qed.

(** A request the transport fails to deliver. *)
Lemma get_request_fails (fuel : nat) (endpoint : string) (params : loc)
    (o : HelixAPI) (w : world) (s : Session) (h : gmap string header_val)
    (e : exn) (rest : list outcome) :
  http o = Some s -> headers o = Some h ->
  next_outcome w = (Fails e, rest) ->
  _get_request (S fuel) endpoint params (o, w) =
    (Err e, (o, after_get w endpoint params h (Fails e) rest)).
Proof.
  intros Hhttp Hheaders Hnext. cbn [_get_request].
  cbv beta iota zeta delta
    [bind ret raise get_self get_world modify_world attr_http attr_headers
     session_get of_outcome fst snd].
  rewrite Hhttp, Hheaders, Hnext. reflexivity.
Qed.

Lemma ok_bodies_not_200 url p h r :
  status_code r <> 200 -> ok_bodies [EvGet url p h (Responds r)] = [].
Proof.
  intros H. unfold ok_bodies. simpl.
  apply Z.eqb_neq in H. rewrite H. reflexivity.
Qed.

Ltac frame_unsent :=
  simpl; split; [reflexivity|]; exists []; rewrite app_nil_r;
  split; [reflexivity|]; split; [constructor|]; split; [discriminate|].

Ltac frame_sent Hheaders :=
  simpl; split; [reflexivity|]; eexists; split; [reflexivity|];
  split; [repeat constructor|]; split;
  [ try discriminate
  | let h' := fresh "h" in let Hh' := fresh "Hh" in
    intros h' _ _ Hh'; try rewrite Hheaders in Hh'; inversion Hh'; subst;
    do 2 eexists; reflexivity ].

Lemma get_request_frame (endpoint : string) (params : loc) :
  forall (fuel : nat) (o : HelixAPI) (w : world),
  get_request_post endpoint params fuel o w
    (_get_request fuel endpoint params (o, w)).
Proof.
  induction fuel as [|fuel IH]; intros o w; unfold get_request_post.
  { simpl. unfold diverge. frame_unsent. intros h Hf. contradiction. }
  assert (Hh : http o = None \/ exists s, http o = Some s)
    by (destruct (http o); eauto).
  destruct Hh as [Hhttp | [s Hhttp]].
  { destruct (get_request_unsent fuel endpoint params o w (or_introl Hhttp))
      as [e ->].
    frame_unsent. intros h _ [s Hs]. rewrite Hhttp in Hs. discriminate Hs. }
  assert (Hh : headers o = None \/ exists h, headers o = Some h)
    by (destruct (headers o); eauto).
  destruct Hh as [Hheaders | [h Hheaders]].
  { destruct (get_request_unsent fuel endpoint params o w (or_intror Hheaders))
      as [e ->].
    frame_unsent. intros h _ _ Hh. rewrite Hheaders in Hh. discriminate Hh. }
  assert (Hn : (exists e rest, next_outcome w = (Fails e, rest))
               \/ exists r rest, script w = Responds r :: rest).
  { unfold next_outcome. destruct (script w) as [|[r|e] rest]; eauto. }
  destruct Hn as [(e & rest & Hnext) | (r & rest & Hscript)].
  { rewrite (get_request_fails fuel endpoint params o w s h e rest
               Hhttp Hheaders Hnext).
    frame_sent Hheaders. }
  destruct (Z.eq_dec (status_code r) 200) as [H200|H200].
  { rewrite (get_request_200 fuel endpoint params o w s h r rest
               Hhttp Hheaders Hscript H200).
    frame_sent Hheaders.
    intros b Hb. split; [|discriminate].
    unfold ok_bodies. simpl. apply Z.eqb_eq in H200. rewrite H200.
    destruct (body r); inversion Hb; reflexivity. }
  destruct (Z.eq_dec (status_code r) 429) as [H429|H429].
  { rewrite (get_request_429 fuel endpoint params o w s h r rest
               Hhttp Hheaders Hscript H429).
    frame_sent Hheaders. }
  destruct (Z.eq_dec (status_code r) 401) as [H401|H401].
  2: { rewrite (get_request_other fuel endpoint params o w s h r rest
                  Hhttp Hheaders Hscript H200 H429 H401).
       frame_sent Hheaders. }
  destruct (_access_token_refreshed o) eqn:Hguard.
  { rewrite (get_request_401_guarded fuel endpoint params o w s h r rest
               Hhttp Hheaders Hscript H401 Hguard).
    frame_sent Hheaders. }
  rewrite (get_request_401_refresh fuel endpoint params o w s h r rest
             Hhttp Hheaders Hscript H401 Hguard).
  unfold bind.
  pose proof (call_refresh_frame
                (observed r o, after_get w endpoint params h (Responds r) rest))
    as Hrefresh.
  destruct (call__refresh_access_token
              (observed r o, after_get w endpoint params h (Responds r) rest))
    as [[[]|e|] [o1 w1]]; cbn [fst snd] in Hrefresh;
    destruct Hrefresh as (Hheap1 & t1 & Htrace1 & Hno1);
    cbv beta iota; cbn [fst snd].
  - (* the refresh returned: the request is sent again *)
    destruct (IH o1 w1) as (Hheap2 & t2 & Htrace2 & Hparams2 & Hok2 & _).
    fold (_get_request fuel endpoint params).
    split; [rewrite Hheap2, Hheap1; reflexivity|].
    exists ([EvGet (BASE_URL +:+ endpoint) (deref w params) h (Responds r)]
              ++ t1 ++ t2).
    split; [|split; [|split]].
    + rewrite Htrace2, Htrace1. simpl. rewrite <- !app_assoc. reflexivity.
    + rewrite !get_params_app, (no_gets_params t1 Hno1). simpl.
      constructor; [reflexivity|].
      replace (deref w params) with (deref w1 params); [exact Hparams2|].
      unfold deref. rewrite Hheap1. reflexivity.
    + intros b Hb. destruct (Hok2 b Hb) as [Hbodies Hne]. split.
      * rewrite !ok_bodies_app, (no_gets_bodies t1 Hno1),
          (ok_bodies_not_200 _ _ _ _ H200). exact Hbodies.
      * rewrite get_params_app. discriminate.
    + intros h' _ _ Hh'. rewrite Hheaders in Hh'. inversion Hh'; subst.
      do 2 eexists. reflexivity.
  - split; [exact Hheap1|].
    exists ([EvGet (BASE_URL +:+ endpoint) (deref w params) h (Responds r)] ++ t1).
    split; [|split; [|split]].
    + rewrite Htrace1. simpl. rewrite <- !app_assoc. reflexivity.
    + rewrite get_params_app, (no_gets_params t1 Hno1). repeat constructor.
    + discriminate.
    + intros h' _ _ Hh'. rewrite Hheaders in Hh'. inversion Hh'; subst.
      do 2 eexists. reflexivity.
  - split; [exact Hheap1|].
    exists ([EvGet (BASE_URL +:+ endpoint) (deref w params) h (Responds r)] ++ t1).
    split; [|split; [|split]].
    + rewrite Htrace1. simpl. rewrite <- !app_assoc. reflexivity.
    + rewrite get_params_app, (no_gets_params t1 Hno1). repeat constructor.
    + discriminate.
    + intros h' _ _ Hh'. rewrite Hheaders in Hh'. inversion Hh'; subst.
      do 2 eexists. reflexivity.
Qed.

(** The loop with nothing left to do. *)
Lemma paginate_done (n fuel : nat) (endpoint : string) (params : loc)
    (maxp : Z) (cap : option Z) (to_go : Z) (acc : list pyval) (st : state) :
  (to_go >? 0) || cap_is_none cap = false ->
  paginate (S n) fuel endpoint params maxp cap to_go acc st = (Ok acc, st).
Proof.
  intros Hcond. cbn [paginate]. rewrite Hcond. reflexivity.
Qed.

(** One turn of the loop, whatever the request brings. *)
Lemma paginate_turn (n fuel : nat) (endpoint : string) (params : loc)
    (maxp : Z) (cap : option Z) (to_go : Z) (acc : list pyval)
    (o : HelixAPI) (w : world) :
  (to_go >? 0) || cap_is_none cap = true ->
  paginate (S n) fuel endpoint params maxp cap to_go acc (o, w) =
    match _get_request fuel endpoint params
            (o, with_item w params "first" (PyInt (Z.min maxp to_go))) with
    | (Ok b, (o2, w2)) =>
        match py_getitem b "data" with
        | Ok data =>
            match py_iter data with
            | Ok items =>
                match cursor_of b with
                | Some c =>
                    paginate n fuel endpoint params maxp cap
                      (to_go - Z.of_nat (length items)) (acc ++ items)
                      (o2, with_item w2 params "after" c)
                | None => (Ok (acc ++ items), (o2, w2))
                end
            | Err x => (Err x, (o2, w2))
            | Diverge => (Diverge, (o2, w2))
            end
        | Err x => (Err x, (o2, w2))
        | Diverge => (Diverge, (o2, w2))
        end
    | (Err x, st2) => (Err x, st2)
    | (Diverge, st2) => (Diverge, st2)
    end.
Proof.
  intros Hcond. cbn [paginate]. rewrite Hcond. unfold_monad.
  destruct (_get_request fuel endpoint params
              (o, with_item w params "first" (PyInt (Z.min maxp to_go))))
    as [[b|x|] [o2 w2]]; try reflexivity.
  destruct (py_getitem b "data") as [data| |]; try reflexivity.
  destruct (py_iter data) as [items| |] eqn:Hitems; try reflexivity.
  rewrite (py_len_iter data items Hitems). unfold cursor_of.
  pose proof (py_getitem_returns b "pagination") as Hpg.
  destruct (py_getitem b "pagination") as [pg| |]; try reflexivity;
    [|contradiction].
  pose proof (py_getitem_returns pg "cursor") as Hc.
  destruct (py_getitem pg "cursor") as [c| |]; try reflexivity.
  contradiction.
Qed.

(** The loop only ever adds to the trace. *)
Lemma paginate_extends (fuel : nat) (endpoint : string) (params : loc)
    (maxp : Z) (cap : option Z) :
  forall (n : nat) (to_go : Z) (acc : list pyval) (st : state),
  exists t,
    trace (snd (snd (paginate n fuel endpoint params maxp cap to_go acc st)))
    = trace (snd st) ++ t.
Proof.
  induction n as [|n IH]; intros to_go acc [o w].
  { exists []. simpl. rewrite app_nil_r. reflexivity. }
  destruct ((to_go >? 0) || cap_is_none cap) eqn:Hcond.
  2: { rewrite paginate_done by exact Hcond. exists []. simpl.
       rewrite app_nil_r. reflexivity. }
  rewrite paginate_turn by exact Hcond.
  destruct (get_request_frame endpoint params fuel o
              (with_item w params "first" (PyInt (Z.min maxp to_go))))
    as (_ & t1 & Ht1 & _).
  destruct (_get_request fuel endpoint params
              (o, with_item w params "first" (PyInt (Z.min maxp to_go))))
    as [[b|x|] [o2 w2]]; cbn [fst snd] in Ht1;
    try (exists t1; exact Ht1).
  destruct (py_getitem b "data") as [data| |]; try (exists t1; exact Ht1).
  destruct (py_iter data) as [items| |]; try (exists t1; exact Ht1).
  destruct (cursor_of b) as [c|]; try (exists t1; exact Ht1).
  destruct (IH (to_go - Z.of_nat (length items)) (acc ++ items)
              (o2, with_item w2 params "after" c)) as [t2 Ht2].
  exists (t1 ++ t2). rewrite Ht2. cbn [fst snd].
  change (trace (with_item w2 params "after" c)) with (trace w2).
  rewrite Ht1. simpl. rewrite <- app_assoc. reflexivity.
Qed.

Lemma deref_lookup (w : world) (l : loc) (d : gmap string pyval) :
  heap w !! l = Some d -> deref w l = d.
Proof. intros H. unfold deref. rewrite H. reflexivity. Qed.

Lemma lookup_with_item (w : world) (l : loc) (k : string) (v : pyval)
    (d : gmap string pyval) :
  heap w !! l = Some d ->
  heap (with_item w l k v) !! l = Some (<[k := v]> d).
Proof.
  intros H. unfold with_item. cbn [heap].
  rewrite (deref_lookup w l d H).
  apply list_lookup_insert_eq. apply (lookup_lt_Some _ _ _ H).
Qed.

(** A turn of the loop on a ready client sends its request, with the page
    size just written into the caller's dict. *)
Lemma paginate_sends (n fuel : nat) (endpoint : string) (params : loc)
    (maxp : Z) (cap : option Z) (to_go : Z) (acc : list pyval)
    (o : HelixAPI) (w : world) (h : gmap string header_val) :
  (to_go >? 0) || cap_is_none cap = true ->
  is_Some (http o) -> headers o = Some h ->
  exists out t,
    trace (snd (snd (paginate (S n) (S fuel) endpoint params maxp cap to_go
                       acc (o, w))))
    = trace w ++
      EvGet (BASE_URL +:+ endpoint)
        (deref (with_item w params "first" (PyInt (Z.min maxp to_go))) params)
        h out :: t.
Proof.
  intros Hcond Hhttp Hheaders. rewrite paginate_turn by exact Hcond.
  destruct (get_request_frame endpoint params (S fuel) o
              (with_item w params "first" (PyInt (Z.min maxp to_go))))
    as (_ & t1 & Ht1 & _ & _ & Hsent).
  destruct (Hsent h ltac:(discriminate) Hhttp Hheaders) as (out & t1' & ->).
  change (trace (with_item w params "first" (PyInt (Z.min maxp to_go))))
    with (trace w) in Ht1.
  destruct (_get_request (S fuel) endpoint params
              (o, with_item w params "first" (PyInt (Z.min maxp to_go))))
    as [[b|x|] [o2 w2]]; cbn [fst snd] in Ht1;
    try (exists out, t1'; exact Ht1).
  destruct (py_getitem b "data") as [data| |];
    try (exists out, t1'; exact Ht1).
  destruct (py_iter data) as [items| |]; try (exists out, t1'; exact Ht1).
  destruct (cursor_of b) as [c|]; try (exists out, t1'; exact Ht1).
  destruct (paginate_extends (S fuel) endpoint params maxp cap n
              (to_go - Z.of_nat (length items)) (acc ++ items)
              (o2, with_item w2 params "after" c)) as [t2 Ht2].
  exists out, (t1' ++ t2). rewrite Ht2. cbn [fst snd].
  change (trace (with_item w2 params "after" c)) with (trace w2).
  rewrite Ht1. rewrite <- app_assoc. reflexivity.
Qed.

(** C6 (amended).  With [cap_records] unset, [_paginated_request] starts
    its counter at the page size and sends a first request that asks for a
    full page.  It stops after that page exactly when the page carries no
    cursor; when the page carries a cursor, a further request follows with
    that cursor as its [after] parameter. *)
Theorem uncapped_request_follows_cursor
    (fuel : nat) (endpoint : string) (params : loc) (maxp : Z)
    (o : HelixAPI) (w : world) (d : gmap string pyval)
    (r : Response) (rest : list outcome) :
  ready o ->
  heap w !! params = Some d ->
  script w = Responds r :: rest ->
  page_answer r ->
  let run := _paginated_request (S (S fuel)) endpoint params maxp None (o, w) in
  exists h t,
    trace (snd (snd run)) =
      trace w ++
      EvGet (BASE_URL +:+ endpoint) (<["first" := PyInt maxp]> d) h (Responds r)
      :: t
    /\ (cursor_of (page_of r) = None ->
        t = [] /\ fst run = Ok (records_of (page_of r)))
    /\ (forall c, cursor_of (page_of r) = Some c ->
        exists p out t',
          t = EvGet (BASE_URL +:+ endpoint) p h out :: t'
          /\ p !! "after" = Some c).
Proof.
  intros [[s Hhttp] [h Hheaders]] Hd Hscript Hpage run. subst run.
  unfold _paginated_request.
  rewrite (paginate_step (S fuel) (S fuel) endpoint params maxp None maxp []
             o w s h r rest Hhttp Hheaders Hscript Hpage)
    by (rewrite orb_true_r; reflexivity).
  rewrite Z.min_id. exists h.
  pose proof (lookup_with_item w params "first" (PyInt maxp) d Hd) as Hd1.
  assert (Hsnap : deref (with_item w params "first" (PyInt maxp)) params
                  = <["first" := PyInt maxp]> d)
    by (apply deref_lookup; exact Hd1).
  destruct (cursor_of (page_of r)) as [c|] eqn:Hcur.
  - (* a cursor: the loop goes on *)
    set (w1 := after_get (with_item w params "first" (PyInt maxp)) endpoint
                 params h (Responds r) rest).
    set (o1 := set__refresh_access_token (PyBool false) (observed r o)).
    destruct (paginate_sends fuel (S fuel) endpoint params maxp None
                (maxp - Z.of_nat (length (records_of (page_of r))))
                ([] ++ records_of (page_of r)) o1
                (with_item w1 params "after" c) h)
      as (out & t' & Hsent);
      [rewrite orb_true_r; reflexivity | exists s; exact Hhttp | exact Hheaders |].
    eexists. split; [|split].
    + rewrite Hsent. subst w1. simpl. rewrite Hsnap, <- app_assoc.
      reflexivity.
    + intros Hnone. discriminate Hnone.
    + intros c' Hc'. inversion Hc'; subst c'. do 3 eexists.
      split; [reflexivity|].
      assert (Hd2 : heap (with_item w1 params "after" c) !! params
                    = Some (<["after" := c]> (<["first" := PyInt maxp]> d)))
        by (apply lookup_with_item; exact Hd1).
      rewrite (deref_lookup _ _ _
                 (lookup_with_item _ params "first" _ _ Hd2)).
      rewrite lookup_insert_ne by discriminate. apply lookup_insert_eq.
  - (* no cursor: one page *)
    exists []. split; [|split].
    + simpl. rewrite Hsnap. reflexivity.
    + intros _. split; reflexivity.
    + intros c Hc. discriminate Hc.
Qed.

(** A first page with the cursor "A", then a page without cursor. *)
Lemma uncapped_request_follows_cursor_witness :
  let r1 := mkResponse 200 "" [] (Some (Sample.page 2 (Some "A"))) in
  let r2 := mkResponse 200 "" [] (Some (Sample.page 1 None)) in
  let st := Sample.client None [Responds r1; Responds r2] in
  let run := _paginated_request 2 "clips" Sample.params0 100 None st in
  exists h t,
    trace (snd (snd run)) =
      [] ++ EvGet (BASE_URL +:+ "clips") (<["first" := PyInt 100]> ∅) h (Responds r1)
      :: t
    /\ (cursor_of (page_of r1) = None ->
        t = [] /\ fst run = Ok (records_of (page_of r1)))
    /\ (forall c, cursor_of (page_of r1) = Some c ->
        exists p out t',
          t = EvGet (BASE_URL +:+ "clips") p h out :: t'
          /\ p !! "after" = Some c).
Proof.
  intros r1 r2 st.
  replace st with (fst st, snd st) by (destruct st; reflexivity).
  apply (uncapped_request_follows_cursor 0 "clips" Sample.params0 100
           (fst st) (snd st) ∅ r1 [Responds r2]).
  - split; eexists; reflexivity.
  - reflexivity.
  - reflexivity.
  - split; [reflexivity|]. eexists. split; [reflexivity|].
    do 2 eexists. split; reflexivity.
Defined.

(** C6, as stated, fails: with the cap unset and a first page that carries
    a cursor, the loop does not stop after one page. *)
Lemma uncapped_request_not_one_page :
  let st := Sample.client None
              [Sample.answer 200 [] (Sample.page 2 (Some "A"));
               Sample.answer 200 [] (Sample.page 1 None)] in
  let run := _paginated_request 3 "clips" Sample.params0 100 None st in
  Sample.count is_get (snd run) = 2%nat
  /\ Sample.count is_get (snd run) <> 1%nat
  /\ (exists records, fst run = Ok records /\ length records = 3%nat).
Proof.
  cbv zeta. split; [vm_compute; reflexivity|].
  split; [vm_compute; discriminate|].
  eexists. split; vm_compute; reflexivity.
Qed.

(* --------------------------------------------------------------------- *)
(* The caller's dict after a paginated request                            *)
(* --------------------------------------------------------------------- *)

Lemma cursors_app (t1 t2 : list event) :
  cursors (t1 ++ t2) = cursors t1 ++ cursors t2.
Proof. unfold cursors. rewrite ok_bodies_app. apply omap_app. Qed.

(** What a run of the loop that returns has done to the caller's dict. *)
Lemma paginate_params (fuel : nat) (endpoint : string) (params : loc)
    (maxp : Z) (cap : option Z) :
  forall (n : nat) (to_go : Z) (acc : list pyval) (o : HelixAPI) (w : world)
         (d : gmap string pyval) (records : list pyval)
         (o' : HelixAPI) (w' : world),
  heap w !! params = Some d ->
  paginate n fuel endpoint params maxp cap to_go acc (o, w)
    = (Ok records, (o', w')) ->
  exists t d',
    trace w' = trace w ++ t
    /\ heap w' !! params = Some d'
    /\ (get_params t = [] ->
        d' = d /\ (to_go >? 0) || cap_is_none cap = false)
    /\ (forall p, last (get_params t) = Some p ->
        d' !! "first" = p !! "first"
        /\ exists m, p !! "first" = Some (PyInt m))
    /\ (forall c, last (cursors t) = Some c -> d' !! "after" = Some c)
    /\ (cursors t = [] -> d' !! "after" = d !! "after").
Proof.
  induction n as [|n IH]; intros to_go acc o w d records o' w' Hd Hrun.
  { discriminate Hrun. }
  destruct ((to_go >? 0) || cap_is_none cap) eqn:Hcond.
  2: { rewrite paginate_done in Hrun by exact Hcond.
       inversion Hrun; subst. exists [], d. rewrite app_nil_r.
       split; [reflexivity|]. split; [exact Hd|].
       split; [intros _; split; reflexivity|].
       split; [intros p Hp; discriminate Hp|].
       split; [intros c Hc; discriminate Hc | reflexivity]. }
  rewrite paginate_turn in Hrun by exact Hcond.
  set (v := PyInt (Z.min maxp to_go)) in *.
  pose proof (lookup_with_item w params "first" v d Hd) as Hd0.
  destruct (get_request_frame endpoint params fuel o
              (with_item w params "first" v))
    as (Hheap & t1 & Ht1 & Hsnap & Hok & _).
  rewrite (deref_lookup _ _ _ Hd0) in Hsnap.
  change (trace (with_item w params "first" v)) with (trace w) in Ht1.
  destruct (_get_request fuel endpoint params (o, with_item w params "first" v))
    as [[b|x|] [o2 w2]]; try discriminate Hrun.
  cbn [fst snd] in Hheap, Ht1, Hok.
  destruct (Hok b eq_refl) as [Hbodies Hsent]. clear Hok.
  assert (Hd2 : heap w2 !! params = Some (<["first" := v]> d))
    by (rewrite Hheap; exact Hd0).
  assert (Hlast1 : forall p, last (get_params t1) = Some p ->
                             p = <["first" := v]> d).
  { intros p Hp. apply last_Some_elem_of in Hp.
    rewrite Forall_forall in Hsnap. apply Hsnap. exact Hp. }
  destruct (py_getitem b "data") as [data| |]; try discriminate Hrun.
  destruct (py_iter data) as [items| |]; try discriminate Hrun.
  destruct (cursor_of b) as [c|] eqn:Hcur.
  - (* the page carries a cursor: it is written, and the loop goes on *)
    pose proof (lookup_with_item w2 params "after" c _ Hd2) as Hd3.
    destruct (IH _ _ _ _ _ _ _ _ Hd3 Hrun)
      as (t2 & d' & Ht2 & Hd' & Hnone & Hfirst & Hafter & Hsame).
    change (trace (with_item w2 params "after" c)) with (trace w2) in Ht2.
    exists (t1 ++ t2), d'. split; [|split; [|split; [|split; [|split]]]].
    + rewrite Ht2, Ht1, <- app_assoc. reflexivity.
    + exact Hd'.
    + intros Hnil. rewrite get_params_app in Hnil.
      apply app_eq_nil in Hnil. destruct Hnil as [Hnil _]. contradiction.
    + intros p Hp. rewrite get_params_app, last_app in Hp.
      destruct (last (get_params t2)) as [p2|] eqn:Hl2.
      * inversion Hp; subst p2. apply Hfirst. reflexivity.
      * apply last_None in Hl2. destruct (Hnone Hl2) as [-> _].
        rewrite (Hlast1 p Hp).
        rewrite lookup_insert_ne by discriminate.
        split; [reflexivity|]. subst v. eexists. apply lookup_insert_eq.
    + intros c' Hc'. rewrite cursors_app, last_app in Hc'.
      destruct (last (cursors t2)) as [c2|] eqn:Hl2.
      * inversion Hc'; subst c2. apply Hafter. reflexivity.
      * apply last_None in Hl2. rewrite (Hsame Hl2).
        unfold cursors in Hc'. rewrite Hbodies in Hc'. simpl in Hc'.
        rewrite Hcur in Hc'. simpl in Hc'. inversion Hc'; subst c'.
        apply lookup_insert_eq.
    + intros Hnil. rewrite cursors_app in Hnil.
      apply app_eq_nil in Hnil. destruct Hnil as [Hnil _].
      unfold cursors in Hnil. rewrite Hbodies in Hnil. simpl in Hnil.
      rewrite Hcur in Hnil. discriminate Hnil.
  - (* no cursor: the loop ends *)
    inversion Hrun; subst.
    exists t1, (<["first" := v]> d).
    split; [exact Ht1|]. split; [exact Hd2|].
    split; [intros Hnil; contradiction|]. split; [|split].
    + intros p Hp. rewrite (Hlast1 p Hp). split; [reflexivity|].
      subst v. eexists. apply lookup_insert_eq.
    + intros c Hc. unfold cursors in Hc. rewrite Hbodies in Hc.
      simpl in Hc. rewrite Hcur in Hc. discriminate Hc.
    + intros _. apply lookup_insert_ne. discriminate.
Qed.

(** C10 (amended).  A call of [_paginated_request] that returns has
    written into the caller's own dict: if it sent a request at all, the
    key [first] holds the page size asked for in the last request, and the
    key [after] holds the cursor of the last page that carried one, if any
    did.  It sends no request, and leaves the dict as it was, exactly when a
    cap of zero or less was given. *)
Theorem paginated_request_mutates_params
    (fuel : nat) (endpoint : string) (params : loc) (maxp : Z)
    (cap : option Z) (o : HelixAPI) (w : world) (d : gmap string pyval)
    (records : list pyval) (o' : HelixAPI) (w' : world) :
  heap w !! params = Some d ->
  _paginated_request fuel endpoint params maxp cap (o, w)
    = (Ok records, (o', w')) ->
  exists t d',
    trace w' = trace w ++ t
    /\ heap w' !! params = Some d'
    /\ (get_params t = [] <-> exists c, cap = Some c /\ c <= 0)
    /\ (get_params t = [] -> d' = d)
    /\ (forall p, last (get_params t) = Some p ->
        d' !! "first" = p !! "first"
        /\ exists m, p !! "first" = Some (PyInt m))
    /\ (forall c, last (cursors t) = Some c -> d' !! "after" = Some c).
Proof.
  intros Hd Hrun. unfold _paginated_request in Hrun.
  destruct (paginate_params fuel endpoint params maxp cap fuel _ [] o w d
              records o' w' Hd Hrun)
    as (t & d' & Ht & Hd' & Hnone & Hfirst & Hafter & _).
  exists t, d'. split; [exact Ht|]. split; [exact Hd'|].
  split; [|split; [|split]].
  - split.
    + intros Hnil. destruct (Hnone Hnil) as [_ Hcond].
      destruct cap as [c|]; [|rewrite orb_true_r in Hcond; discriminate].
      exists c. split; [reflexivity|].
      rewrite orb_false_r in Hcond.
      destruct (Z.gtb_spec c 0); [discriminate | lia].
    + intros (c & -> & Hc).
      destruct fuel as [|n]; [discriminate Hrun|].
      rewrite paginate_done in Hrun.
      * inversion Hrun; subst.
        assert (Hnil : t = []).
        { apply (app_inv_head (trace w')). rewrite app_nil_r.
          symmetry. exact Ht. }
        rewrite Hnil. reflexivity.
      * rewrite orb_false_r. destruct (Z.gtb_spec c 0); [lia | reflexivity].
  - intros Hnil. apply (Hnone Hnil).
  - exact Hfirst.
  - exact Hafter.
Qed.

(** Two pages under a cap of 5: the caller's dict ends with [first] = 3,
    the size asked for in the second request, and [after] = "A". *)
Lemma paginated_request_mutates_params_witness :
  let st := Sample.client None
              [Sample.answer 200 [] (Sample.page 2 (Some "A"));
               Sample.answer 200 [] (Sample.page 1 None)] in
  let run := _paginated_request 3 "clips" Sample.params0 100 (Some 5) st in
  deref (snd (snd run)) Sample.params0 !! "first" = Some (PyInt 3)
  /\ deref (snd (snd run)) Sample.params0 !! "after" = Some (PyStr "A")
  /\ exists t d',
       trace (snd (snd run)) = trace (snd st) ++ t
       /\ heap (snd (snd run)) !! Sample.params0 = Some d'
       /\ (get_params t = [] <-> exists c, Some 5 = Some c /\ c <= 0)
       /\ (get_params t = [] -> d' = ∅)
       /\ (forall p, last (get_params t) = Some p ->
           d' !! "first" = p !! "first"
           /\ exists m, p !! "first" = Some (PyInt m))
       /\ (forall c, last (cursors t) = Some c -> d' !! "after" = Some c).
Proof.
  intros st run. split; [vm_compute; reflexivity|].
  split; [vm_compute; reflexivity|].
  apply (paginated_request_mutates_params 3 "clips" Sample.params0 100
           (Some 5) (fst st) (snd st) ∅
           (match fst run with Ok records => records | _ => [] end)
           (fst (snd run)) (snd (snd run))).
  - reflexivity.
  - vm_compute. reflexivity.
Defined.

(** C10, as stated, fails.  With a cap of 0 the call returns without a
    request and the caller's dict has no [first] key: it is left as it was.
    And a dict that already holds [first] = 1 is equal to itself after a
    call with a cap of 1 that met no cursor. *)
Lemma paginated_request_may_leave_params :
  (let st := Sample.client None [Sample.answer 200 [] (Sample.page 2 None)] in
   let run := _paginated_request 3 "clips" Sample.params0 100 (Some 0) st in
   fst run = Ok []
   /\ snd run = st
   /\ deref (snd (snd run)) Sample.params0 !! "first" = None)
  /\
  (let st := Sample.client None [Sample.answer 200 [] (Sample.page 1 None)] in
   let st1 := (fst st, with_item (snd st) Sample.params0 "first" (PyInt 1)) in
   let run := _paginated_request 3 "user/follows" Sample.params0 100 (Some 1) st1 in
   (exists records, fst run = Ok records /\ length records = 1%nat)
   /\ Sample.count is_get (snd run) = 1%nat
   /\ heap (snd (snd run)) = heap (snd st1)).
Proof.
  split.
  - cbv zeta. split; [reflexivity|]. split; [reflexivity|].
    vm_compute. reflexivity.
  - cbv zeta. split; [|split].
    + eexists. split; vm_compute; reflexivity.
    + vm_compute. reflexivity.
    + vm_compute. reflexivity.
Qed.

(* --------------------------------------------------------------------- *)
(* A single request always comes to an end                                *)
(* --------------------------------------------------------------------- *)

(** A refresh that returns has set the guard. *)
Lemma refresh_sets_guard (st st' : state) :
  call__refresh_access_token st = (Ok tt, st') ->
  _access_token_refreshed (fst st') = true.
Proof.
  destruct st as [o w]. unfold call__refresh_access_token. unfold_monad.
  destruct (_refresh_access_token_attr o); [discriminate|].
  unfold _refresh_access_token. unfold_monad.
  destruct (http o); [|discriminate].
  destruct (script w) as [|[r|e] rest]; try discriminate.
  destruct (body r) as [b|]; [|discriminate].
  destruct (py_getitem b "access_token") as [token| |]; try discriminate.
  simpl. destruct (headers o); [|discriminate].
  destruct (access_token_refresh_callback o) as [cb|].
  - unfold_monad. destruct (cb token); [discriminate|].
    intros H. inversion H. reflexivity.
  - intros H. inversion H. reflexivity.
Qed.

Lemma call_refresh_returns (st : state) :
  fst (call__refresh_access_token st) <> Diverge.
Proof.
  destruct st as [o w]. unfold call__refresh_access_token. unfold_monad.
  destruct (_refresh_access_token_attr o); [discriminate|].
  unfold _refresh_access_token. unfold_monad.
  destruct (http o); [|discriminate].
  destruct (script w) as [|[r|e] rest]; try discriminate.
  destruct (body r) as [b|]; [|discriminate].
  pose proof (py_getitem_returns b "access_token") as Hb.
  destruct (py_getitem b "access_token") as [token| |];
    try discriminate; try contradiction.
  simpl. destruct (headers o); [|discriminate].
  destruct (access_token_refresh_callback o) as [cb|]; [|discriminate].
  unfold_monad. destruct (cb token); discriminate.
Qed.

(** With the guard set, one level of fuel is enough. *)
Lemma get_request_guarded_returns (fuel : nat) (endpoint : string)
    (params : loc) (o : HelixAPI) (w : world) :
  _access_token_refreshed o = true ->
  fst (_get_request (S fuel) endpoint params (o, w)) <> Diverge.
Proof.
  intros Hguard.
  assert (Hh : http o = None \/ exists s, http o = Some s)
    by (destruct (http o); eauto).
  destruct Hh as [Hhttp | [s Hhttp]].
  { destruct (get_request_unsent fuel endpoint params o w (or_introl Hhttp))
      as [e ->]. discriminate. }
  assert (Hh : headers o = None \/ exists h, headers o = Some h)
    by (destruct (headers o); eauto).
  destruct Hh as [Hheaders | [h Hheaders]].
  { destruct (get_request_unsent fuel endpoint params o w (or_intror Hheaders))
      as [e ->]. discriminate. }
  assert (Hn : (exists e rest, next_outcome w = (Fails e, rest))
               \/ exists r rest, script w = Responds r :: rest).
  { unfold next_outcome. destruct (script w) as [|[r|e] rest]; eauto. }
  destruct Hn as [(e & rest & Hnext) | (r & rest & Hscript)].
  { rewrite (get_request_fails fuel endpoint params o w s h e rest
               Hhttp Hheaders Hnext). discriminate. }
  destruct (Z.eq_dec (status_code r) 200) as [H200|H200].
  { rewrite (get_request_200 fuel endpoint params o w s h r rest
               Hhttp Hheaders Hscript H200).
    destruct (body r); discriminate. }
  destruct (Z.eq_dec (status_code r) 429) as [H429|H429].
  { rewrite (get_request_429 fuel endpoint params o w s h r rest
               Hhttp Hheaders Hscript H429). discriminate. }
  destruct (Z.eq_dec (status_code r) 401) as [H401|H401].
  - rewrite (get_request_401_guarded fuel endpoint params o w s h r rest
               Hhttp Hheaders Hscript H401 Hguard). discriminate.
  - rewrite (get_request_other fuel endpoint params o w s h r rest
               Hhttp Hheaders Hscript H200 H429 H401). discriminate.
Qed.

(** [_get_request] calls itself at most once: with two levels of fuel it
    returns a body or raises, on any client and against any transport. *)
Lemma get_request_returns (fuel : nat) (endpoint : string) (params : loc)
    (st : state) :
  fst (_get_request (S (S fuel)) endpoint params st) <> Diverge.
Proof.
  destruct st as [o w].
  destruct (_access_token_refreshed o) eqn:Hguard.
  { apply get_request_guarded_returns. exact Hguard. }
  assert (Hh : http o = None \/ exists s, http o = Some s)
    by (destruct (http o); eauto).
  destruct Hh as [Hhttp | [s Hhttp]].
  { destruct (get_request_unsent (S fuel) endpoint params o w (or_introl Hhttp))
      as [e ->]. discriminate. }
  assert (Hh : headers o = None \/ exists h, headers o = Some h)
    by (destruct (headers o); eauto).
  destruct Hh as [Hheaders | [h Hheaders]].
  { destruct (get_request_unsent (S fuel) endpoint params o w (or_intror Hheaders))
      as [e ->]. discriminate. }
  assert (Hn : (exists e rest, next_outcome w = (Fails e, rest))
               \/ exists r rest, script w = Responds r :: rest).
  { unfold next_outcome. destruct (script w) as [|[r|e] rest]; eauto. }
  destruct Hn as [(e & rest & Hnext) | (r & rest & Hscript)].
  { rewrite (get_request_fails (S fuel) endpoint params o w s h e rest
               Hhttp Hheaders Hnext). discriminate. }
  destruct (Z.eq_dec (status_code r) 200) as [H200|H200].
  { rewrite (get_request_200 (S fuel) endpoint params o w s h r rest
               Hhttp Hheaders Hscript H200).
    destruct (body r); discriminate. }
  destruct (Z.eq_dec (status_code r) 429) as [H429|H429].
  { rewrite (get_request_429 (S fuel) endpoint params o w s h r rest
               Hhttp Hheaders Hscript H429). discriminate. }
  destruct (Z.eq_dec (status_code r) 401) as [H401|H401].
  2: { rewrite (get_request_other (S fuel) endpoint params o w s h r rest
                  Hhttp Hheaders Hscript H200 H429 H401). discriminate. }
  rewrite (get_request_401_refresh (S fuel) endpoint params o w s h r rest
             Hhttp Hheaders Hscript H401 Hguard).
  unfold bind.
  pose proof (call_refresh_returns
                (observed r o, after_get w endpoint params h (Responds r) rest))
    as Hret.
  pose proof (refresh_sets_guard
                (observed r o, after_get w endpoint params h (Responds r) rest))
    as Hset.
  destruct (call__refresh_access_token
              (observed r o, after_get w endpoint params h (Responds r) rest))
    as [[[]|e|] [o1 w1]]; cbn [fst] in Hret; try discriminate;
    try contradiction.
  apply get_request_guarded_returns. apply (Hset (o1, w1)). reflexivity.
Qed.

(* ===================================================================== *)
(* Further properties of the request core                                *)
(* ===================================================================== *)

(* --------------------------------------------------------------------- *)
(* One request: re-authorization, failures                                *)
(* --------------------------------------------------------------------- *)

(** A 401, a token exchange and a second 401, on the sample client. *)
Lemma first_call_refreshes_once_witness :
  let r401 := mkResponse 401 "" [] (Some (PyDict [])) in
  let rt := mkResponse 200 "" [] (Some (Sample.token_body "t1")) in
  let st := Sample.client None [Responds r401; Responds rt; Responds r401] in
  exists o' w',
    _get_request 2 "clips" Sample.params0 st = (Err (Exception ""), (o', w'))
    /\ script w' = []
    /\ access_token o' = Some (PyStr "t1")
    /\ Sample.count is_get (o', w') = 2%nat
    /\ Sample.count is_post (o', w') = 1%nat.
Proof.
  intros r401 rt st.
  destruct (first_call_refreshes_once 0 "clips" Sample.params0 (fst st) (snd st)
              _setup_http_client
              {[ "Client-ID" := HStr "cid";
                 "Authorization" := HBearer (PyStr "t0") ]}
              r401 rt r401 [] (Sample.token_body "t1") (PyStr "t1"))
    as (o' & w' & Hrun & Hscript & Htok & Htrace); try reflexivity.
  exists o', w'. split; [|split; [|split; [|split]]].
  - replace st with (fst st, snd st) by (destruct st; reflexivity). exact Hrun.
  - exact Hscript.
  - exact Htok.
  - unfold Sample.count. cbn [snd]. rewrite Htrace. reflexivity.
  - unfold Sample.count. cbn [snd]. rewrite Htrace. reflexivity.
Defined.




(** A status the code does not handle (neither 200 nor 429 nor 401) ends
    the call with the bare Exception after that one request: nothing is
    retried, no token is requested, token and guard are as before. *)
Theorem unhandled_status_raises
    (fuel : nat) (endpoint : string) (params : loc) (o : HelixAPI) (w : world)
    (h : gmap string header_val) (r : Response) (rest : list outcome) :
  is_Some (http o) -> headers o = Some h ->
  script w = Responds r :: rest ->
  status_code r <> 200 -> status_code r <> 429 -> status_code r <> 401 ->
  exists o' w',
    _get_request (S fuel) endpoint params (o, w) = (Err (Exception ""), (o', w'))
    /\ script w' = rest
    /\ trace w' = trace w ++
         [EvGet (BASE_URL +:+ endpoint) (deref w params) h (Responds r)]
    /\ access_token o' = access_token o
    /\ _access_token_refreshed o' = _access_token_refreshed o
    /\ heap w' = heap w.
Proof.
  intros [s Hhttp] Hheaders Hscript H200 H429 H401.
  rewrite (get_request_other fuel endpoint params o w s h r rest
             Hhttp Hheaders Hscript H200 H429 H401).
  do 2 eexists. split; [reflexivity|]. repeat split.
Qed.

Lemma unhandled_status_raises_witness :
  let r := mkResponse 404 "Not Found" [] None in
  let st := Sample.client None [Responds r; Sample.answer 200 [] (PyDict [])] in
  exists o' w',
    _get_request 2 "clips" Sample.params0 st = (Err (Exception ""), (o', w'))
    /\ script w' = [Sample.answer 200 [] (PyDict [])]
    /\ Sample.count is_get (o', w') = 1%nat.
Proof.
  intros r st.
  destruct (unhandled_status_raises 1 "clips" Sample.params0 (fst st) (snd st)
              {[ "Client-ID" := HStr "cid";
                 "Authorization" := HBearer (PyStr "t0") ]}
              r [Sample.answer 200 [] (PyDict [])])
    as (o' & w' & Hrun & Hscript & Htrace & _);
    try reflexivity; try discriminate; try (eexists; reflexivity).
  exists o', w'. split; [|split].
  - replace st with (fst st, snd st) by (destruct st; reflexivity). exact Hrun.
  - exact Hscript.
  - unfold Sample.count. cbn [snd]. rewrite Htrace. reflexivity.
Defined.

(** An exception of the transport (connection failure, timeout, retries
    used up) leaves [_get_request] as it is, and the client is untouched:
    no header was recorded, no attribute assigned. *)
Theorem transport_failure_propagates
    (fuel : nat) (endpoint : string) (params : loc) (o : HelixAPI) (w : world)
    (h : gmap string header_val) (e : exn) (rest : list outcome) :
  is_Some (http o) -> headers o = Some h ->
  script w = Fails e :: rest ->
  _get_request (S fuel) endpoint params (o, w) =
    (Err e, (o, after_get w endpoint params h (Fails e) rest)).
Proof.
  intros [s Hhttp] Hheaders Hscript.
  apply (get_request_fails fuel endpoint params o w s h e rest Hhttp Hheaders).
  unfold next_outcome. rewrite Hscript. reflexivity.
Qed.

Lemma transport_failure_propagates_witness :
  let e := RequestException "ReadTimeout" in
  let st := Sample.client None [Fails e] in
  _get_request 2 "clips" Sample.params0 st =
    (Err e, (fst st, after_get (snd st) "clips" Sample.params0
                       {[ "Client-ID" := HStr "cid";
                          "Authorization" := HBearer (PyStr "t0") ]}
                       (Fails e) [])).
Proof.
  intros e st.
  replace st with (fst st, snd st) at 1 by (destruct st; reflexivity).
  apply (transport_failure_propagates 1 "clips" Sample.params0 (fst st) (snd st));
    try reflexivity. eexists; reflexivity.
Defined.

(* --------------------------------------------------------------------- *)
(* The token exchange                                                     *)
(* --------------------------------------------------------------------- *)

(** An answer of the token endpoint whose JSON object has no
    [access_token] ends the refresh with KeyError; the client keeps the
    token, the headers and the guard it had, and the callback is not
    called. *)
Theorem refresh_without_token_keeps_credential
    (o : HelixAPI) (w : world) (r : Response) (rest : list outcome)
    (items : list (string * pyval)) :
  is_Some (http o) ->
  script w = Responds r :: rest ->
  body r = Some (PyDict items) ->
  assoc_get "access_token" items = None ->
  _refresh_access_token (o, w) =
    (Err (KeyError "access_token"), (o, after_post w o (Responds r) rest)).
Proof.
  intros [s Hhttp] Hscript Hbody Hkey.
  apply (refresh_no_token o w s r rest (PyDict items) Hhttp Hscript Hbody).
  simpl. rewrite Hkey. reflexivity.
Qed.

Lemma refresh_without_token_keeps_credential_witness :
  let r := mkResponse 200 "" [] (Some (PyDict [("expires_in", PyInt 5000)])) in
  let st := Sample.client None [Responds r] in
  _refresh_access_token st =
    (Err (KeyError "access_token"),
     (fst st, after_post (snd st) (fst st) (Responds r) []))
  /\ access_token (fst st) = Some (PyStr "t0").
Proof.
  intros r st. split; [|reflexivity].
  replace st with (fst st, snd st) at 1 by (destruct st; reflexivity).
  apply (refresh_without_token_keeps_credential (fst st) (snd st) r []
           [("expires_in", PyInt 5000)]); try reflexivity.
  eexists; reflexivity.
Defined.

(** The refresh depends on the body of the answer only: two answers of the
    token endpoint with the same body and any two statuses give the same
    result and leave the same client. *)
Theorem refresh_depends_on_body_only
    (o : HelixAPI) (w : world) (r r' : Response) (rest : list outcome) :
  script w = Responds r :: rest ->
  body r' = body r ->
  let w' := mkWorld (Responds r' :: rest) (trace w) (clock w) (heap w) in
  fst (_refresh_access_token (o, w')) = fst (_refresh_access_token (o, w))
  /\ fst (snd (_refresh_access_token (o, w')))
     = fst (snd (_refresh_access_token (o, w))).
Proof.
  intros Hscript Hbody w'. subst w'.
  unfold _refresh_access_token. unfold_monad. simpl.
  destruct (http o); [|split; reflexivity].
  rewrite Hscript. unfold_monad. simpl. rewrite Hbody.
  destruct (body r) as [b|]; [|split; reflexivity].
  destruct (py_getitem b "access_token") as [token| |]; try (split; reflexivity).
  simpl. destruct (headers o); [|split; reflexivity].
  destruct (access_token_refresh_callback o) as [cb|]; [|split; reflexivity].
  destruct (cb token); split; reflexivity.
Qed.

Lemma refresh_depends_on_body_only_witness :
  let r := mkResponse 200 "OK" [] (Some (Sample.token_body "t1")) in
  let r' := mkResponse 503 "Service Unavailable" [] (Some (Sample.token_body "t1")) in
  let st := Sample.client None [Responds r] in
  let w' := mkWorld [Responds r'] (trace (snd st)) (clock (snd st)) (heap (snd st)) in
  fst (_refresh_access_token (fst st, w')) = fst (_refresh_access_token (fst st, snd st))
  /\ fst (snd (_refresh_access_token (fst st, w')))
     = fst (snd (_refresh_access_token (fst st, snd st))).
Proof.
  intros r r' st.
  apply (refresh_depends_on_body_only (fst st) (snd st) r r' []); reflexivity.
Defined.

(* --------------------------------------------------------------------- *)
(* The shapes a request and a refresh can take                            *)
(* --------------------------------------------------------------------- *)

Lemma posts_app (t1 t2 : list event) : posts (t1 ++ t2) = (posts t1 + posts t2)%nat.
Proof. unfold posts. rewrite filter_app, length_app. reflexivity. Qed.

Ltac refresh_unchanged :=
  eexists; simpl; split; [first [reflexivity | symmetry; apply app_nil_r]|];
  split; [unfold posts; simpl; lia | left; reflexivity].

(** The client a refresh leaves, and the number of exchanges it made. *)
Lemma call_refresh_cases (o : HelixAPI) (w : world) :
  exists t,
    trace (snd (snd (call__refresh_access_token (o, w)))) = trace w ++ t
    /\ (posts t <= 1)%nat
    /\ (fst (snd (call__refresh_access_token (o, w))) = o
        \/ (exists token,
              headers o = None
              /\ fst (snd (call__refresh_access_token (o, w)))
                 = set_access_token token o)
        \/ exists h token,
             headers o = Some h
             /\ (fst (snd (call__refresh_access_token (o, w)))
                   = installed token h o
                 \/ fst (snd (call__refresh_access_token (o, w)))
                    = set__access_token_refreshed true (installed token h o))).
Proof.
  assert (Hcall : call__refresh_access_token (o, w) =
                  match _refresh_access_token_attr o with
                  | Some _ => (Err (TypeError "'bool' object is not callable"), (o, w))
                  | None => _refresh_access_token (o, w)
                  end).
  { unfold call__refresh_access_token. unfold_monad.
    destruct (_refresh_access_token_attr o); reflexivity. }
  rewrite Hcall. clear Hcall.
  destruct (_refresh_access_token_attr o).
  { refresh_unchanged. }
  unfold _refresh_access_token. unfold_monad.
  destruct (http o); [|refresh_unchanged].
  destruct (script w) as [|[r|e] rest]; try refresh_unchanged.
  destruct (body r) as [b|]; try refresh_unchanged.
  destruct (py_getitem b "access_token") as [token| |]; try refresh_unchanged.
  simpl. destruct (headers o) as [h|] eqn:Hh.
  2: { eexists; simpl; split; [reflexivity|].
       split; [unfold posts; simpl; lia|].
       right. left. exists token. split; reflexivity. }
  destruct (access_token_refresh_callback o) as [cb|].
  - destruct (cb token); eexists; simpl;
      (split; [rewrite <- app_assoc; reflexivity|]);
      (split; [unfold posts; simpl; lia|]); right; right; exists h, token;
      (split; [reflexivity|]); [left | right]; reflexivity.
  - eexists; simpl; split; [reflexivity|].
    split; [unfold posts; simpl; lia|].
    right. right. exists h, token. split; [reflexivity|]. right. reflexivity.
Qed.

(** The four ways a request can go: not sent; sent and failed in the
    transport; answered and finished on the spot; answered 401 with the
    guard clear, and then on to the refresh and the same request again. *)
Lemma get_request_cases (fuel : nat) (endpoint : string) (params : loc)
    (o : HelixAPI) (w : world) :
  (exists x, _get_request (S fuel) endpoint params (o, w) = (Err x, (o, w)))
  \/ (exists h x rest,
        headers o = Some h
        /\ _get_request (S fuel) endpoint params (o, w)
           = (Err x, (o, after_get w endpoint params h (Fails x) rest)))
  \/ (exists h r rest res o',
        headers o = Some h
        /\ _get_request (S fuel) endpoint params (o, w)
           = (res, (o', after_get w endpoint params h (Responds r) rest))
        /\ (o' = observed r o
            \/ o' = set__refresh_access_token (PyBool false) (observed r o)))
  \/ (exists h r rest,
        headers o = Some h
        /\ _access_token_refreshed o = false
        /\ _get_request (S fuel) endpoint params (o, w)
           = (let* _ := call__refresh_access_token in
              _get_request fuel endpoint params)
               (observed r o, after_get w endpoint params h (Responds r) rest)).
Proof.
  assert (Hh : http o = None \/ exists s, http o = Some s)
    by (destruct (http o); eauto).
  destruct Hh as [Hhttp | [s Hhttp]].
  { left. apply get_request_unsent. left. exact Hhttp. }
  assert (Hh : headers o = None \/ exists h, headers o = Some h)
    by (destruct (headers o); eauto).
  destruct Hh as [Hheaders | [h Hheaders]].
  { left. apply get_request_unsent. right. exact Hheaders. }
  assert (Hn : (exists e rest, next_outcome w = (Fails e, rest))
               \/ exists r rest, script w = Responds r :: rest).
  { unfold next_outcome. destruct (script w) as [|[r|e] rest]; eauto. }
  destruct Hn as [(e & rest & Hnext) | (r & rest & Hscript)].
  { right. left. exists h, e, rest. split; [exact Hheaders|].
    apply (get_request_fails fuel endpoint params o w s h e rest
             Hhttp Hheaders Hnext). }
  destruct (Z.eq_dec (status_code r) 200) as [H200|H200].
  { right. right. left. do 5 eexists. split; [exact Hheaders|]. split.
    - apply (get_request_200 fuel endpoint params o w s h r rest
               Hhttp Hheaders Hscript H200).
    - right. reflexivity. }
  destruct (Z.eq_dec (status_code r) 429) as [H429|H429].
  { right. right. left. do 5 eexists. split; [exact Hheaders|]. split.
    - apply (get_request_429 fuel endpoint params o w s h r rest
               Hhttp Hheaders Hscript H429).
    - left. reflexivity. }
  destruct (Z.eq_dec (status_code r) 401) as [H401|H401].
  2: { right. right. left. do 5 eexists. split; [exact Hheaders|]. split.
       - apply (get_request_other fuel endpoint params o w s h r rest
                  Hhttp Hheaders Hscript H200 H429 H401).
       - left. reflexivity. }
  destruct (_access_token_refreshed o) eqn:Hguard.
  { right. right. left. do 5 eexists. split; [exact Hheaders|]. split.
    - apply (get_request_401_guarded fuel endpoint params o w s h r rest
               Hhttp Hheaders Hscript H401 Hguard).
    - left. reflexivity. }
  right. right. right. exists h, r, rest. split; [exact Hheaders|].
  split; [reflexivity|].
  apply (get_request_401_refresh fuel endpoint params o w s h r rest
           Hhttp Hheaders Hscript H401 Hguard).
Qed.

(* --------------------------------------------------------------------- *)
(* The credential stays consistent                                        *)
(* --------------------------------------------------------------------- *)

Lemma authorized_observed (r : Response) (o : HelixAPI) :
  authorized o -> authorized (observed r o).
Proof. intros H. exact H. Qed.

Lemma authorized_attr (v : pyval) (o : HelixAPI) :
  authorized o -> authorized (set__refresh_access_token v o).
Proof. intros H. exact H. Qed.

Lemma authorized_guard (b : bool) (o : HelixAPI) :
  authorized o -> authorized (set__access_token_refreshed b o).
Proof. intros H. exact H. Qed.

Lemma authorized_installed (token : pyval) (h : gmap string header_val)
    (o : HelixAPI) :
  authorized o -> headers o = Some h -> authorized (installed token h o).
Proof.
  intros (s & h' & tok & Hhttp & Hheaders & _ & _ & Hid) Hh.
  rewrite Hh in Hheaders. inversion Hheaders; subst h'.
  exists s, (<["Authorization" := HBearer token]> h), token.
  repeat split.
  - exact Hhttp.
  - apply lookup_insert_eq.
  - rewrite lookup_insert_ne by discriminate. exact Hid.
Qed.

Lemma call_refresh_authorized (o : HelixAPI) (w : world) :
  authorized o ->
  authorized (fst (snd (call__refresh_access_token (o, w)))).
Proof.
  intros Ha.
  destruct (call_refresh_cases o w)
    as (t & _ & _ & [-> | [(token & Hnone & _) | (h & token & Hh & [-> | ->])]]).
  - exact Ha.
  - destruct Ha as (_ & h & _ & _ & Hh & _). rewrite Hnone in Hh. discriminate Hh.
  - apply authorized_installed; assumption.
  - apply authorized_guard, authorized_installed; assumption.
Qed.

Lemma get_request_authorized (endpoint : string) (params : loc) :
  forall (fuel : nat) (o : HelixAPI) (w : world),
  authorized o ->
  authorized (fst (snd (_get_request fuel endpoint params (o, w)))).
Proof.
  induction fuel as [|fuel IH]; intros o w Ha; [exact Ha|].
  destruct (get_request_cases fuel endpoint params o w)
    as [[x ->] | [(h & x & rest & _ & ->)
       | [(h & r & rest & res & o' & _ & -> & [-> | ->])
       | (h & r & rest & _ & _ & ->)]]]; try exact Ha.
  unfold bind.
  pose proof (call_refresh_authorized (observed r o)
                (after_get w endpoint params h (Responds r) rest) Ha) as Ha1.
  destruct (call__refresh_access_token
              (observed r o, after_get w endpoint params h (Responds r) rest))
    as [[[]|e|] [o1 w1]]; cbn [fst snd] in Ha1; cbv beta iota; cbn [fst snd];
    try exact Ha1.
  apply IH. exact Ha1.
Qed.

Lemma paginate_authorized (fuel : nat) (endpoint : string) (params : loc)
    (maxp : Z) (cap : option Z) :
  forall (n : nat) (to_go : Z) (acc : list pyval) (o : HelixAPI) (w : world),
  authorized o ->
  authorized (fst (snd (paginate n fuel endpoint params maxp cap to_go acc (o, w)))).
Proof.
  induction n as [|n IH]; intros to_go acc o w Ha; [exact Ha|].
  destruct ((to_go >? 0) || cap_is_none cap) eqn:Hcond.
  2: { rewrite paginate_done by exact Hcond. exact Ha. }
  rewrite paginate_turn by exact Hcond.
  pose proof (get_request_authorized endpoint params fuel o
                (with_item w params "first" (PyInt (Z.min maxp to_go))) Ha)
    as Ha2.
  destruct (_get_request fuel endpoint params
              (o, with_item w params "first" (PyInt (Z.min maxp to_go))))
    as [[b|x|] [o2 w2]]; cbn [fst snd] in Ha2; try exact Ha2.
  destruct (py_getitem b "data") as [data| |]; try exact Ha2.
  destruct (py_iter data) as [items| |]; try exact Ha2.
  destruct (cursor_of b) as [c|]; try exact Ha2.
  apply IH. exact Ha2.
Qed.

(** Whatever a request or a paginated request meets (answers of any
    status, failures of the transport, a refresh that succeeds or fails, a
    callback that raises), the client stays consistent: the Authorization
    header it will send is the token it holds, and the Client-ID header is
    its client id. *)
Theorem requests_keep_credential_consistent
    (fuel : nat) (endpoint : string) (params : loc) (maxp : Z)
    (cap : option Z) (o : HelixAPI) (w : world) :
  authorized o ->
  authorized (fst (snd (_get_request fuel endpoint params (o, w))))
  /\ authorized (fst (snd (_paginated_request fuel endpoint params maxp cap (o, w)))).
Proof.
  intros Ha. split.
  - apply get_request_authorized. exact Ha.
  - unfold _paginated_request. apply paginate_authorized. exact Ha.
Qed.

Lemma requests_keep_credential_consistent_witness :
  let st := Sample.client (Some Sample.failing_callback)
              [Sample.answer 401 [] (PyDict []);
               Sample.answer 200 [] (Sample.token_body "t1")] in
  authorized (fst st)
  /\ access_token (fst (snd (_get_request 2 "clips" Sample.params0 st)))
     = Some (PyStr "t1")
  /\ authorized (fst (snd (_get_request 2 "clips" Sample.params0 st)))
  /\ authorized (fst (snd (_paginated_request 2 "clips" Sample.params0 100 None st))).
Proof.
  intros st.
  assert (Ha : authorized (fst st)).
  { do 3 eexists. repeat split; reflexivity. }
  split; [exact Ha|]. split; [reflexivity|].
  replace st with (fst st, snd st) by (destruct st; reflexivity).
  apply (requests_keep_credential_consistent 2 "clips" Sample.params0 100 None
           (fst st) (snd st) Ha).
Defined.

(* --------------------------------------------------------------------- *)
(* At most one token exchange per request                                 *)
(* --------------------------------------------------------------------- *)

Lemma get_request_guarded_no_post (endpoint : string) (params : loc)
    (fuel : nat) (o : HelixAPI) (w : world) :
  _access_token_refreshed o = true ->
  exists t,
    trace (snd (snd (_get_request fuel endpoint params (o, w)))) = trace w ++ t
    /\ posts t = 0%nat
    /\ _access_token_refreshed (fst (snd (_get_request fuel endpoint params (o, w))))
       = true.
Proof.
  intros Hguard. destruct fuel as [|fuel].
  { exists []. simpl. rewrite app_nil_r. repeat split. exact Hguard. }
  destruct (get_request_cases fuel endpoint params o w)
    as [[x ->] | [(h & x & rest & _ & ->)
       | [(h & r & rest & res & o' & _ & -> & [-> | ->])
       | (h & r & rest & _ & Hclear & _)]]].
  - exists []. simpl. rewrite app_nil_r. repeat split. exact Hguard.
  - eexists. simpl. repeat split. exact Hguard.
  - eexists. simpl. repeat split. exact Hguard.
  - eexists. simpl. repeat split. exact Hguard.
  - rewrite Hguard in Hclear. discriminate Hclear.
Qed.

(** One call of [_get_request] makes at most one token exchange, against
    any transport and with any fuel; and a guard that is set stays set, in
    which case the call makes no exchange at all. *)
Theorem at_most_one_exchange_per_request
    (fuel : nat) (endpoint : string) (params : loc) (o : HelixAPI) (w : world) :
  exists t,
    trace (snd (snd (_get_request fuel endpoint params (o, w)))) = trace w ++ t
    /\ (posts t <= 1)%nat
    /\ (_access_token_refreshed o = true ->
        posts t = 0%nat
        /\ _access_token_refreshed
             (fst (snd (_get_request fuel endpoint params (o, w)))) = true).
Proof.
  destruct (_access_token_refreshed o) eqn:Hguard.
  { destruct (get_request_guarded_no_post endpoint params fuel o w Hguard)
      as (t & Ht & Hp & Hg).
    exists t. split; [exact Ht|]. split; [lia|]. intros _. split; assumption. }
  destruct fuel as [|fuel].
  { exists []. simpl. rewrite app_nil_r. split; [reflexivity|].
    split; [unfold posts; simpl; lia | discriminate]. }
  destruct (get_request_cases fuel endpoint params o w)
    as [[x ->] | [(h & x & rest & _ & ->)
       | [(h & r & rest & res & o' & _ & -> & _)
       | (h & r & rest & _ & _ & ->)]]].
  - exists []. simpl. rewrite app_nil_r. split; [reflexivity|].
    split; [unfold posts; simpl; lia | discriminate].
  - eexists. simpl. split; [reflexivity|].
    split; [unfold posts; simpl; lia | discriminate].
  - eexists. simpl. split; [reflexivity|].
    split; [unfold posts; simpl; lia | discriminate].
  - unfold bind.
    destruct (call_refresh_cases (observed r o)
                (after_get w endpoint params h (Responds r) rest))
      as (t1 & Ht1 & Hp1 & _).
    pose proof (refresh_sets_guard
                  (observed r o, after_get w endpoint params h (Responds r) rest))
      as Hset.
    destruct (call__refresh_access_token
                (observed r o, after_get w endpoint params h (Responds r) rest))
      as [[[]|e|] [o1 w1]]; cbn [fst snd] in Ht1; cbv beta iota.
    + destruct (get_request_guarded_no_post endpoint params fuel o1 w1
                  (Hset (o1, w1) eq_refl)) as (t2 & Ht2 & Hp2 & _).
      exists ([EvGet (BASE_URL +:+ endpoint) (deref w params) h (Responds r)]
                ++ t1 ++ t2).
      split; [|split; [|discriminate]].
      * rewrite Ht2, Ht1. simpl. rewrite <- !app_assoc. reflexivity.
      * rewrite !posts_app, Hp2. unfold posts at 1. simpl. lia.
    + exists ([EvGet (BASE_URL +:+ endpoint) (deref w params) h (Responds r)]
                ++ t1).
      split; [|split; [|discriminate]].
      * cbn [fst snd]. rewrite Ht1. simpl. rewrite <- !app_assoc. reflexivity.
      * rewrite posts_app. unfold posts at 1. simpl. lia.
    + exists ([EvGet (BASE_URL +:+ endpoint) (deref w params) h (Responds r)]
                ++ t1).
      split; [|split; [|discriminate]].
      * cbn [fst snd]. rewrite Ht1. simpl. rewrite <- !app_assoc. reflexivity.
      * rewrite posts_app. unfold posts at 1. simpl. lia.
Qed.

(** A server that answers 401 to everything, with a token endpoint that
    keeps issuing tokens: one exchange, then the call gives up. *)
Lemma at_most_one_exchange_per_request_witness :
  let st := Sample.client None
              [Sample.answer 401 [] (PyDict []);
               Sample.answer 200 [] (Sample.token_body "t1");
               Sample.answer 401 [] (PyDict []);
               Sample.answer 200 [] (Sample.token_body "t2");
               Sample.answer 401 [] (PyDict [])] in
  Sample.count is_post (snd (_get_request 5 "clips" Sample.params0 st)) = 1%nat
  /\ exists t,
       trace (snd (snd (_get_request 5 "clips" Sample.params0 st)))
       = trace (snd st) ++ t
       /\ (posts t <= 1)%nat
       /\ (_access_token_refreshed (fst st) = true ->
           posts t = 0%nat
           /\ _access_token_refreshed
                (fst (snd (_get_request 5 "clips" Sample.params0 st))) = true).
Proof.
  intros st. split; [vm_compute; reflexivity|].
  replace st with (fst st, snd st) by (destruct st; reflexivity).
  apply (at_most_one_exchange_per_request 5 "clips" Sample.params0
           (fst st) (snd st)).
Defined.

(* --------------------------------------------------------------------- *)
(* Construction                                                           *)
(* --------------------------------------------------------------------- *)

(** Built with a token, the client sends nothing: the world is as before,
    the token is the one given, the guard is clear, the rate-limit
    attributes read as the values of the class, and the credential is
    consistent. *)
Theorem init_with_token_sends_nothing
    (cid csecret : string) (token : pyval)
    (callback : option (pyval -> option exn)) (o0 : HelixAPI) (w : world) :
  is_none token = false ->
  exists o,
    __init__ cid csecret token callback (o0, w) = (Ok tt, (o, w))
    /\ authorized o
    /\ access_token o = Some token
    /\ client_id o = cid /\ client_secret o = csecret
    /\ _access_token_refreshed o = false
    /\ _refresh_access_token_attr o = None
    /\ http o = Some _setup_http_client
    /\ _ratelimit_remaining o = PyInt 0
    /\ _ratelimit_reset_timestamp o = PyStr "0".
Proof.
  intros Htok. unfold __init__. unfold_monad. rewrite Htok. simpl.
  eexists. split; [reflexivity|]. split.
  - do 3 eexists. simpl. repeat split; reflexivity.
  - repeat split.
Qed.

Lemma init_with_token_sends_nothing_witness :
  exists o,
    __init__ "cid" "secret" (PyStr "t0") None
      (new_object, world_of [Sample.answer 200 [] (Sample.token_body "t1")] 0)
    = (Ok tt, (o, world_of [Sample.answer 200 [] (Sample.token_body "t1")] 0))
    /\ authorized o
    /\ access_token o = Some (PyStr "t0").
Proof.
  destruct (init_with_token_sends_nothing "cid" "secret" (PyStr "t0") None
              new_object
              (world_of [Sample.answer 200 [] (Sample.token_body "t1")] 0)
              eq_refl)
    as (o & Hrun & Ha & Htok & _).
  exists o. split; [exact Hrun|]. split; assumption.
Defined.

(** Built without a token, the client is never built: the constructor
    calls the refresh before it has created the session, so it raises
    AttributeError, in every world and without a request. *)
Theorem init_without_token_raises
    (cid csecret : string) (callback : option (pyval -> option exn))
    (o0 : HelixAPI) (w : world) :
  exists o,
    __init__ cid csecret PyNone callback (o0, w) =
      (Err (AttributeError "'HelixAPI' object has no attribute 'http'"), (o, w))
    /\ access_token o = None /\ http o = None.
Proof.
  unfold __init__, call__refresh_access_token, _refresh_access_token.
  unfold_monad. simpl. eexists. repeat split.
Qed.

(* --------------------------------------------------------------------- *)
(* Requests and the caller's parameters                                   *)
(* --------------------------------------------------------------------- *)

(** [_get_request] reads the caller's dict and never writes a dict: the
    store is as before, and every GET of the call, the request after a
    refresh included, carries the parameters as they were at the call. *)
Theorem get_request_leaves_dicts
    (fuel : nat) (endpoint : string) (params : loc) (o : HelixAPI) (w : world) :
  heap (snd (snd (_get_request fuel endpoint params (o, w)))) = heap w
  /\ exists t,
       trace (snd (snd (_get_request fuel endpoint params (o, w)))) = trace w ++ t
       /\ Forall (fun p => p = deref w params) (get_params t).
Proof.
  destruct (get_request_frame endpoint params fuel o w)
    as (Hheap & t & Ht & Hparams & _).
  split; [exact Hheap|]. exists t. split; assumption.
Qed.

(* --------------------------------------------------------------------- *)
(* The cap, the page size, and servers that make no progress              *)
(* --------------------------------------------------------------------- *)





(** Without a cap the counter still falls with every page and still
    bounds the page size: after a first page with a cursor, the second
    request asks for [min(pageSize, pageSize - records so far)] records, so
    for no record at all when the first page was full. *)
Theorem uncapped_request_shrinks_page_size
    (fuel : nat) (endpoint : string) (params : loc) (maxp : Z)
    (o : HelixAPI) (w : world) (d : gmap string pyval)
    (r : Response) (rest : list outcome) (c : pyval) :
  ready o ->
  heap w !! params = Some d ->
  script w = Responds r :: rest ->
  page_answer r ->
  cursor_of (page_of r) = Some c ->
  exists p1 p2 more,
    get_params (trace (snd (snd
      (_paginated_request (S (S fuel)) endpoint params maxp None (o, w)))))
    = get_params (trace w) ++ p1 :: p2 :: more
    /\ p1 !! "first" = Some (PyInt maxp)
    /\ p2 !! "first"
       = Some (PyInt (Z.min maxp
                        (maxp - Z.of_nat (length (records_of (page_of r)))))).
Proof.
  intros [[s Hhttp] [h Hheaders]] Hd Hscript Hpage Hcur.
  unfold _paginated_request.
  rewrite (paginate_step (S fuel) (S fuel) endpoint params maxp None maxp []
             o w s h r rest Hhttp Hheaders Hscript Hpage)
    by (rewrite orb_true_r; reflexivity).
  rewrite Z.min_id, Hcur.
  pose proof (lookup_with_item w params "first" (PyInt maxp) d Hd) as Hd1.
  set (w1 := after_get (with_item w params "first" (PyInt maxp)) endpoint
               params h (Responds r) rest).
  set (o1 := set__refresh_access_token (PyBool false) (observed r o)).
  destruct (paginate_sends fuel (S fuel) endpoint params maxp None
              (maxp - Z.of_nat (length (records_of (page_of r))))
              ([] ++ records_of (page_of r)) o1
              (with_item w1 params "after" c) h)
    as (out & t' & Hsent);
    [rewrite orb_true_r; reflexivity | exists s; exact Hhttp | exact Hheaders |].
  rewrite Hsent.
  assert (Hd2 : heap (with_item w1 params "after" c) !! params
                = Some (<["after" := c]> (<["first" := PyInt maxp]> d)))
    by (apply lookup_with_item; exact Hd1).
  rewrite (deref_lookup _ _ _ (lookup_with_item _ params "first" _ _ Hd2)).
  subst w1. simpl.
  rewrite (deref_lookup _ _ _ Hd1).
  do 3 eexists. split; [|split].
  - rewrite !get_params_app. simpl. rewrite <- app_assoc. reflexivity.
  - apply lookup_insert_eq.
  - apply lookup_insert_eq.
Qed.

(** A full first page of 100 records: the second request asks for 0. *)
Lemma uncapped_request_shrinks_page_size_witness :
  let r1 := mkResponse 200 "" [] (Some (Sample.page 100 (Some "A"))) in
  let st := Sample.client None [Responds r1] in
  exists p1 p2 more,
    get_params (trace (snd (snd
      (_paginated_request 2 "clips" Sample.params0 100 None st))))
    = [] ++ p1 :: p2 :: more
    /\ p1 !! "first" = Some (PyInt 100)
    /\ p2 !! "first" = Some (PyInt 0).
Proof.
  intros r1 st.
  replace st with (fst st, snd st) by (destruct st; reflexivity).
  apply (uncapped_request_shrinks_page_size 0 "clips" Sample.params0 100
           (fst st) (snd st) ∅ r1 [] (PyStr "A")).
  - split; eexists; reflexivity.
  - reflexivity.
  - reflexivity.
  - split; [reflexivity|]. eexists. split; [reflexivity|].
    do 2 eexists. split; reflexivity.
  - reflexivity.
Defined.

(** The loop on empty pages with a cursor: it uses every turn it is given,
    one request each. *)
Lemma paginate_empty_pages
    (fuel : nat) (endpoint : string) (params : loc) (maxp : Z)
    (cap : option Z) (s : Session) (h : gmap string header_val)
    (rest : list outcome) (to_go : Z) :
  (to_go >? 0) || cap_is_none cap = true ->
  forall (rs : list Response) (acc : list pyval) (o : HelixAPI) (w : world),
  http o = Some s -> headers o = Some h ->
  script w = map Responds rs ++ rest ->
  Forall page_answer rs ->
  Forall (fun r => cursor_of (page_of r) <> None) rs ->
  Forall (fun r => records_of (page_of r) = []) rs ->
  exists o' w',
    paginate (length rs) (S fuel) endpoint params maxp cap to_go acc (o, w)
      = (Diverge, (o', w'))
    /\ script w' = rest
    /\ length (get_params (trace w'))
       = (length (get_params (trace w)) + length rs)%nat.
Proof.
  intros Hcond rs.
  induction rs as [|r rs IH];
    intros acc o w Hhttp Hheaders Hscript Hpages Hcursors Hempty.
  { exists o, w. simpl. repeat split; [exact Hscript | lia]. }
  inversion Hpages as [|? ? Hp Hpages']; subst.
  inversion Hcursors as [|? ? Hc Hcursors']; subst.
  inversion Hempty as [|? ? He Hempty']; subst.
  destruct (cursor_of (page_of r)) as [c|] eqn:Hcur; [|contradiction].
  cbn [length].
  rewrite (paginate_step (length rs) fuel endpoint params maxp cap to_go acc
             o w s h r (map Responds rs ++ rest) Hhttp Hheaders Hscript Hp Hcond).
  rewrite Hcur, He. simpl length. rewrite Z.sub_0_r.
  edestruct (IH (acc ++ [])) as (o' & w' & Hrun & Hrest & Hgets);
    [ | | | exact Hpages' | exact Hcursors' | exact Hempty' | ].
  4: { exists o', w'. split; [exact Hrun|]. split; [exact Hrest|].
       rewrite Hgets. simpl. rewrite get_params_snoc by reflexivity. lia. }
  - exact Hhttp.
  - exact Hheaders.
  - reflexivity.
Qed.

(** [_paginated_request] against a server that answers every request with
    an empty page and a cursor, under a positive cap or none: after as many
    requests as the loop is given turns it has collected nothing and has not
    returned, so the call never ends against such a server. *)
Theorem empty_pages_never_end
    (fuel : nat) (endpoint : string) (params : loc) (maxp : Z)
    (cap : option Z) (o : HelixAPI) (w : world) (rs : list Response)
    (rest : list outcome) :
  ready o ->
  script w = map Responds rs ++ rest ->
  length rs = S fuel ->
  Forall page_answer rs ->
  Forall (fun r => cursor_of (page_of r) <> None) rs ->
  Forall (fun r => records_of (page_of r) = []) rs ->
  match cap with Some c => 0 < c | None => True end ->
  exists st',
    _paginated_request (S fuel) endpoint params maxp cap (o, w) = (Diverge, st')
    /\ script (snd st') = rest
    /\ length (get_params (trace (snd st')))
       = (length (get_params (trace w)) + S fuel)%nat.
Proof.
  intros [[s Hhttp] [h Hheaders]] Hscript Hlen Hpages Hcursors Hempty Hcap.
  unfold _paginated_request.
  destruct (paginate_empty_pages fuel endpoint params maxp cap s h rest
              (match cap with Some c => c | None => maxp end))
    with (rs := rs) (acc := @nil pyval) (o := o) (w := w)
    as (o' & w' & Hrun & Hrest & Hgets); try assumption.
  - destruct cap as [c|]; [|apply orb_true_r].
    rewrite orb_false_r. apply Z.gtb_lt. lia.
  - exists (o', w'). rewrite Hlen in Hrun, Hgets.
    split; [exact Hrun|]. split; assumption.
Qed.

(** Three empty pages with cursors under a cap of 10: three requests, and
    the loop is still going. *)
Lemma empty_pages_never_end_witness :
  let r := mkResponse 200 "" [] (Some (Sample.page 0 (Some "A"))) in
  let st := Sample.client None (map Responds [r; r; r]) in
  exists st',
    _paginated_request 3 "clips" Sample.params0 100 (Some 10) st = (Diverge, st')
    /\ script (snd st') = []
    /\ length (get_params (trace (snd st'))) = (0 + 3)%nat.
Proof.
  intros r st.
  replace st with (fst st, snd st) by (destruct st; reflexivity).
  apply (empty_pages_never_end 2 "clips" Sample.params0 100 (Some 10)
           (fst st) (snd st) [r; r; r] []).
  - split; eexists; reflexivity.
  - reflexivity.
  - reflexivity.
  - repeat constructor; eexists; (split; [reflexivity|]);
      do 2 eexists; split; reflexivity.
  - repeat constructor; discriminate.
  - repeat constructor.
  - lia.
Defined.

(* --------------------------------------------------------------------- *)
(* Which dicts a call writes                                              *)
(* --------------------------------------------------------------------- *)

Lemma same_except_refl (p : loc) (w : world) : same_except p w w.
Proof. split; [reflexivity | intros; reflexivity]. Qed.

Lemma same_except_trans (p : loc) (w1 w2 w3 : world) :
  same_except p w1 w2 -> same_except p w2 w3 -> same_except p w1 w3.
Proof.
  intros [Hl1 H1] [Hl2 H2]. split; [congruence|].
  intros l Hl. rewrite (H2 l Hl). apply H1. exact Hl.
Qed.

Lemma same_except_heap (p : loc) (w w' : world) :
  heap w' = heap w -> same_except p w w'.
Proof. intros H. split; [rewrite H; reflexivity | intros; rewrite H; reflexivity]. Qed.

Lemma same_except_with_item (p : loc) (w : world) (k : string) (v : pyval) :
  same_except p w (with_item w p k v).
Proof.
  split.
  - unfold with_item. cbn [heap]. apply length_insert.
  - intros l Hl. unfold with_item. cbn [heap].
    apply list_lookup_insert_ne. congruence.
Qed.

Lemma writes_only_ret {A : Type} (p : loc) (a : A) : writes_only p (ret a).
Proof. intros st. apply same_except_refl. Qed.

Lemma writes_only_raise {A : Type} (p : loc) (e : exn) :
  writes_only p (@raise A e).
Proof. intros st. apply same_except_refl. Qed.

Lemma writes_only_lift {A : Type} (p : loc) (r : result A) :
  writes_only p (lift r).
Proof. intros st. apply same_except_refl. Qed.

Lemma writes_only_bind {A B : Type} (p : loc) (m : M A) (k : A -> M B) :
  writes_only p m -> (forall a, writes_only p (k a)) ->
  writes_only p (bind m k).
Proof.
  intros Hm Hk st. unfold bind. specialize (Hm st).
  destruct (m st) as [[a|e|] st1]; cbn [fst snd] in *; try exact Hm.
  apply (same_except_trans p _ (snd st1)); [exact Hm | apply Hk].
Qed.

Lemma writes_only_setitem (p : loc) (k : string) (v : pyval) :
  writes_only p (dict_setitem p k v).
Proof. intros [o w]. apply same_except_with_item. Qed.

Lemma writes_only_get_request (p : loc) (fuel : nat) (endpoint : string)
    (params : loc) :
  writes_only p (_get_request fuel endpoint params).
Proof.
  intros [o w]. apply same_except_heap.
  apply (get_request_frame endpoint params fuel o w).
Qed.

Lemma writes_only_paginate (fuel : nat) (endpoint : string) (params : loc)
    (maxp : Z) (cap : option Z) :
  forall (n : nat) (to_go : Z) (acc : list pyval),
  writes_only params (paginate n fuel endpoint params maxp cap to_go acc).
Proof.
  induction n as [|n IH]; intros to_go acc [o w].
  { apply same_except_refl. }
  destruct ((to_go >? 0) || cap_is_none cap) eqn:Hcond.
  2: { rewrite paginate_done by exact Hcond. apply same_except_refl. }
  rewrite paginate_turn by exact Hcond.
  pose proof (writes_only_get_request params fuel endpoint params
                (o, with_item w params "first" (PyInt (Z.min maxp to_go))))
    as Hget.
  assert (Hfirst : same_except params w
                     (snd (snd (_get_request fuel endpoint params
                        (o, with_item w params "first"
                              (PyInt (Z.min maxp to_go))))))).
  { eapply same_except_trans; [apply same_except_with_item | exact Hget]. }
  clear Hget.
  destruct (_get_request fuel endpoint params
              (o, with_item w params "first" (PyInt (Z.min maxp to_go))))
    as [[b|x|] [o2 w2]]; cbn [fst snd] in *; try exact Hfirst.
  destruct (py_getitem b "data") as [data| |]; try exact Hfirst.
  destruct (py_iter data) as [items| |]; try exact Hfirst.
  destruct (cursor_of b) as [c|]; try exact Hfirst.
  eapply same_except_trans; [exact Hfirst|].
  eapply same_except_trans; [apply (same_except_with_item params w2 "after" c)|].
  apply (IH _ _ (o2, with_item w2 params "after" c)).
Qed.

Lemma writes_only_paginated_request (fuel : nat) (endpoint : string)
    (params : loc) (maxp : Z) (cap : option Z) :
  writes_only params (_paginated_request fuel endpoint params maxp cap).
Proof. unfold _paginated_request. apply writes_only_paginate. Qed.

(** [_paginated_request] writes the caller's dict and no other: every
    other dict of the store is as before, whatever the transport answers and
    however the call ends. *)
Theorem paginated_request_writes_only_params
    (fuel : nat) (endpoint : string) (params : loc) (maxp : Z)
    (cap : option Z) (st : state) (l : loc) :
  l <> params ->
  heap (snd (snd (_paginated_request fuel endpoint params maxp cap st))) !! l
  = heap (snd st) !! l.
Proof.
  intros Hl.
  apply (writes_only_paginated_request fuel endpoint params maxp cap st).
  exact Hl.
Qed.

Lemma paginated_request_writes_only_params_witness :
  let st := Sample.client None
              [Sample.answer 200 [] (Sample.page 2 (Some "A"));
               Sample.answer 500 [] (PyDict [])] in
  let st1 := snd ((new_dict {[ "game_id" := PyStr "9" ]}) st) in
  heap (snd (snd (_paginated_request 3 "clips" 1%nat 100 None st1))) !! 0%nat
  = heap (snd st1) !! 0%nat.
Proof.
  intros st st1.
  apply (paginated_request_writes_only_params 3 "clips" 1%nat 100 None st1 0%nat).
  discriminate.
Defined.

Lemma keeps_old_raise {A : Type} (e : exn) : keeps_old (@raise A e).
Proof. intros st l d H. exact H. Qed.

Lemma keeps_old_lift_bind {A B : Type} (r : result A) (k : A -> M B) :
  (forall a, keeps_old (k a)) -> keeps_old (bind (lift r) k).
Proof.
  intros Hk st. unfold bind, lift. destruct r as [a|e|].
  - apply Hk.
  - intros l d H. exact H.
  - intros l d H. exact H.
Qed.

(** A method that makes its own params dict and then writes no other dict
    keeps every dict that existed before. *)
Lemma keeps_old_fresh {A : Type} (d0 : gmap string pyval) (body : loc -> M A) :
  (forall p, writes_only p (body p)) ->
  keeps_old (bind (new_dict d0) body).
Proof.
  intros Hbody [o w] l d Hl. cbn [snd] in Hl.
  change (bind (new_dict d0) body (o, w))
    with (body (length (heap w))
            (o, mkWorld (script w) (trace w) (clock w) (heap w ++ [d0]))).
  destruct (Hbody (length (heap w))
              (o, mkWorld (script w) (trace w) (clock w) (heap w ++ [d0])))
    as [_ Hsame].
  cbn [fst snd heap] in Hsame. cbn [fst snd].
  pose proof (lookup_lt_Some _ _ _ Hl) as Hlt.
  etransitivity; [apply Hsame; lia|].
  rewrite lookup_app_l by exact Hlt. exact Hl.
Qed.

(** The public query methods build their own params dict: whatever the
    arguments, the answers of the transport and the way the call ends, every
    dict that existed before the call is the same after it. *)
Theorem query_methods_keep_callers_dicts (fuel : nat) :
  (forall b g c sa ea cap, keeps_old (get_clips fuel b g c sa ea cap))
  /\ (forall cap, keeps_old (get_top_games fuel cap))
  /\ (forall ids names igdb, keeps_old (get_games fuel ids names igdb))
  /\ (forall ids logins, keeps_old (get_users fuel ids logins))
  /\ (forall from_id to_id cap, keeps_old (get_users_follows fuel from_id to_id cap))
  /\ (forall v u g la pe so ty cap, keeps_old (get_videos fuel v u g la pe so ty cap)).
Proof.
  split; [|split; [|split; [|split; [|split]]]].
  - intros b g c sa ea cap. unfold get_clips.
    apply keeps_old_lift_bind. intros [|]; [apply keeps_old_raise|].
    destruct (negb _); [apply keeps_old_raise|].
    apply keeps_old_fresh. intros p. apply writes_only_paginated_request.
  - intros cap. unfold get_top_games.
    apply keeps_old_fresh. intros p. apply writes_only_paginated_request.
  - intros ids names igdb. unfold get_games.
    destruct (is_none ids && is_none names && is_none igdb);
      [apply keeps_old_raise|].
    apply keeps_old_lift_bind. intros a.
    apply keeps_old_lift_bind. intros b.
    apply keeps_old_lift_bind. intros c.
    destruct (a + b + c >? 100); [apply keeps_old_raise|].
    apply keeps_old_fresh. intros p. apply writes_only_get_request.
  - intros ids logins. unfold get_users.
    destruct (is_none ids && is_none logins); [apply keeps_old_raise|].
    destruct (negb (isinstance_list ids || is_none ids));
      [apply keeps_old_raise|].
    destruct (negb (isinstance_list logins || is_none logins));
      [apply keeps_old_raise|].
    apply keeps_old_lift_bind. intros a.
    apply keeps_old_lift_bind. intros b.
    destruct (a + b >? 100); [apply keeps_old_raise|].
    apply keeps_old_fresh. intros p.
    apply writes_only_bind; [apply writes_only_get_request|].
    intros response. apply writes_only_lift.
  - intros from_id to_id cap. unfold get_users_follows.
    destruct (is_none from_id && is_none to_id); [apply keeps_old_raise|].
    cbv zeta. apply keeps_old_fresh. intros p.
    destruct (default 1 cap >? 100).
    + apply writes_only_bind; [apply writes_only_setitem|].
      intros _. apply writes_only_get_request.
    + apply writes_only_bind; [apply writes_only_get_request|].
      intros initial_response.
      apply writes_only_bind; [apply writes_only_lift|]. intros total.
      apply writes_only_bind; [apply writes_only_paginated_request|].
      intros data. apply writes_only_ret.
  - intros v u g la pe so ty cap. unfold get_videos.
    apply keeps_old_lift_bind. intros [|]; [apply keeps_old_raise|].
    repeat (match goal with
            | |- keeps_old (if ?c then raise _ else _) =>
                destruct c; [apply keeps_old_raise|]
            end).
    apply keeps_old_fresh. intros p.
    destruct (negb (is_none v)).
    + apply writes_only_bind; [apply writes_only_get_request|].
      intros response. apply writes_only_lift.
    + apply writes_only_bind; [apply writes_only_paginated_request|].
      intros data. apply writes_only_ret.
Qed.

(** A caller's dict that holds a game id, and a paginated [get_clips] for
    that game: the caller's dict is not written. *)
Lemma query_methods_keep_callers_dicts_witness :
  let st := Sample.client None
              [Sample.answer 200 [] (Sample.page 2 (Some "A"));
               Sample.answer 200 [] (Sample.page 1 None)] in
  let st1 := (fst st, with_item (snd st) Sample.params0 "game_id" (PyStr "9")) in
  let run := get_clips 3 PyNone (PyStr "9") PyNone None None None st1 in
  heap (snd (snd run)) !! Sample.params0 = Some {[ "game_id" := PyStr "9" ]}.
Proof.
  intros st st1 run.
  apply (proj1 (query_methods_keep_callers_dicts 3)
           PyNone (PyStr "9") PyNone None None None st1).
  reflexivity.
Defined.

(* --------------------------------------------------------------------- *)
(* The public query methods                                               *)
(* --------------------------------------------------------------------- *)

Lemma new_dict_run (d : gmap string pyval) (o : HelixAPI) (w : world) :
  new_dict d (o, w) = (Ok (length (heap w)), (o, with_new_dict w d)).
Proof. reflexivity. Qed.

Lemma lookup_new_dict (w : world) (d : gmap string pyval) :
  heap (with_new_dict w d) !! length (heap w) = Some d.
Proof. unfold with_new_dict. cbn [heap]. apply list_lookup_middle. reflexivity. Qed.

Lemma deref_new_dict (w : world) (d : gmap string pyval) :
  deref (with_new_dict w d) (length (heap w)) = d.
Proof. apply deref_lookup, lookup_new_dict. Qed.

Lemma bind_run {A B : Type} (m : M A) (k : A -> M B) (st st' : state) (a : A) :
  m st = (Ok a, st') -> bind m k st = k a st'.
Proof. intros H. unfold bind. rewrite H. reflexivity. Qed.

Lemma bind_lift_run {A B : Type} (r : result A) (k : A -> M B) (st : state) (a : A) :
  r = Ok a -> bind (lift r) k st = k a st.
Proof. intros ->. reflexivity. Qed.

(** [get_videos] asked for videos by id takes no filter and no cap: with a
    list of ids and any of [language], [period], [sort], [video_type] or
    [cap_records] given, it raises ValueError before any request.  The same
    holds for a [language] without a [game_id], whatever the selector. *)
Theorem get_videos_rejects_filters
    (fuel : nat) (st : state) (v u g la pe so ty : pyval) (cap : option Z) :
  id_list v ->
  (is_none la = false /\ is_none g = true)
  \/ (is_none v = false
      /\ (is_none la = false \/ is_none pe = false \/ is_none so = false
          \/ is_none ty = false \/ cap_is_none cap = false)) ->
  rejected (get_videos fuel v u g la pe so ty cap) st.
Proof.
  intros Hv Hbad. unfold rejected, get_videos.
  rewrite (bind_lift_run _ _ _ _ (more_than_100_id_list v Hv)).
  destruct (id_count v >? 100); [eexists; reflexivity|].
  unfold is_not_none.
  destruct (is_none v) eqn:Ev, (is_none u) eqn:Eu, (is_none g) eqn:Eg,
    (is_none la) eqn:Ela, (is_none pe) eqn:Epe, (is_none so) eqn:Eso,
    (is_none ty) eqn:Ety, (cap_is_none cap) eqn:Ecap;
    cbn [negb andb Z.add Z.eqb Pos.eqb Pos.add Pos.succ];
    try (eexists; reflexivity);
    exfalso;
    destruct Hbad as [[H1 H2] | [H1 [H2 | [H2 | [H2 | [H2 | H2]]]]]];
    discriminate.
Qed.

Lemma get_videos_rejects_filters_witness :
  let st := Sample.client None [Sample.answer 200 [] (Sample.page 1 None)] in
  rejected (get_videos 3 (PyList [PyStr "v1"]) PyNone PyNone PyNone PyNone
              PyNone PyNone (Some 10)) st
  /\ rejected (get_videos 3 PyNone (PyStr "u1") PyNone (PyStr "de") PyNone
                 PyNone PyNone None) st.
Proof.
  intros st. split.
  - apply get_videos_rejects_filters; [right; eexists; reflexivity|].
    right. split; [reflexivity|]. do 4 right. reflexivity.
  - apply get_videos_rejects_filters; [left; reflexivity|].
    left. split; reflexivity.
Defined.

(** [get_users] with at most 100 identifiers in all, answered 200: one GET
    to [users] whose parameters are the ids under [id] and the login names
    under [logins]; the [data] of the body is returned. *)
Theorem get_users_returns_data
    (fuel : nat) (o : HelixAPI) (w : world) (h : gmap string header_val)
    (ids logins : pyval) (r : Response) (rest : list outcome) (b data : pyval) :
  is_Some (http o) -> headers o = Some h ->
  id_list ids -> id_list logins ->
  is_none ids && is_none logins = false ->
  id_count ids + id_count logins <= 100 ->
  script w = Responds r :: rest ->
  status_code r = 200 -> body r = Some b ->
  py_getitem b "data" = Ok data ->
  exists st',
    get_users (S fuel) ids logins (o, w) = (Ok data, st')
    /\ script (snd st') = rest
    /\ trace (snd st') = trace w ++
         [EvGet (BASE_URL +:+ "users") {[ "id" := ids; "logins" := logins ]}
            h (Responds r)].
Proof.
  intros [s Hhttp] Hheaders Hi Hl Hsome Hsum Hscript H200 Hbody Hdata.
  unfold get_users. rewrite Hsome.
  rewrite (id_list_shape _ Hi), (id_list_shape _ Hl). cbn [negb].
  rewrite (bind_lift_run _ _ _ _ (len_or_0_id_list ids Hi)).
  rewrite (bind_lift_run _ _ _ _ (len_or_0_id_list logins Hl)).
  replace (id_count ids + id_count logins >? 100) with false
    by (symmetry; destruct (Z.gtb_spec (id_count ids + id_count logins) 100);
        [lia | reflexivity]).
  rewrite (bind_run _ _ _ _ _ (new_dict_run _ o w)).
  erewrite bind_run.
  2: { rewrite (get_request_200 fuel "users" (length (heap w)) o
                  (with_new_dict w {[ "id" := ids; "logins" := logins ]})
                  s h r rest Hhttp Hheaders Hscript H200).
       rewrite Hbody. reflexivity. }
  unfold lift. rewrite Hdata. eexists. split; [reflexivity|].
  split; [reflexivity|]. simpl. rewrite deref_new_dict. reflexivity.
Qed.

Lemma get_users_returns_data_witness :
  let r := mkResponse 200 "" [] (Some (Sample.page 1 None)) in
  let st := Sample.client None [Responds r] in
  exists st',
    get_users 1 (PyList [PyStr "141981764"]) PyNone st
      = (Ok (PyList [Sample.record 0]), st')
    /\ script (snd st') = []
    /\ trace (snd st') = [] ++
         [EvGet (BASE_URL +:+ "users")
            {[ "id" := PyList [PyStr "141981764"]; "logins" := PyNone ]}
            {[ "Client-ID" := HStr "cid";
               "Authorization" := HBearer (PyStr "t0") ]}
            (Responds r)].
Proof.
  intros r st.
  replace st with (fst st, snd st) by (destruct st; reflexivity).
  apply (get_users_returns_data 0 (fst st) (snd st) _
           (PyList [PyStr "141981764"]) PyNone r [] (Sample.page 1 None));
    first [ reflexivity | eexists; reflexivity | left; reflexivity
          | right; eexists; reflexivity | simpl; lia ].
Defined.

(** [get_games] with at least one selector and at most 100 identifiers in
    all, answered 200: one GET to [games] with the three arguments as [id],
    [name] and [igdb_id]; the whole decoded body is returned, not its
    [data]. *)
Theorem get_games_returns_body
    (fuel : nat) (o : HelixAPI) (w : world) (h : gmap string header_val)
    (ids names igdb : pyval) (r : Response) (rest : list outcome) (b : pyval) :
  is_Some (http o) -> headers o = Some h ->
  id_list ids -> id_list names -> id_list igdb ->
  is_none ids && is_none names && is_none igdb = false ->
  id_count ids + id_count names + id_count igdb <= 100 ->
  script w = Responds r :: rest ->
  status_code r = 200 -> body r = Some b ->
  exists st',
    get_games (S fuel) ids names igdb (o, w) = (Ok b, st')
    /\ script (snd st') = rest
    /\ trace (snd st') = trace w ++
         [EvGet (BASE_URL +:+ "games")
            {[ "id" := ids; "name" := names; "igdb_id" := igdb ]}
            h (Responds r)].
Proof.
  intros [s Hhttp] Hheaders Hi Hn Hg Hsome Hsum Hscript H200 Hbody.
  unfold get_games. rewrite Hsome.
  rewrite (bind_lift_run _ _ _ _ (len_or_0_id_list ids Hi)).
  rewrite (bind_lift_run _ _ _ _ (len_or_0_id_list names Hn)).
  rewrite (bind_lift_run _ _ _ _ (len_or_0_id_list igdb Hg)).
  replace (id_count ids + id_count names + id_count igdb >? 100) with false
    by (symmetry;
        destruct (Z.gtb_spec (id_count ids + id_count names + id_count igdb) 100);
        [lia | reflexivity]).
  rewrite (bind_run _ _ _ _ _ (new_dict_run _ o w)).
  rewrite (get_request_200 fuel "games" (length (heap w)) o
             (with_new_dict w {[ "id" := ids; "name" := names; "igdb_id" := igdb ]})
             s h r rest Hhttp Hheaders Hscript H200).
  rewrite Hbody. eexists. split; [reflexivity|].
  split; [reflexivity|]. simpl. rewrite deref_new_dict. reflexivity.
Qed.

(** Exactly 100 game ids are accepted. *)
Lemma get_games_returns_body_witness :
  let r := mkResponse 200 "" [] (Some (Sample.page 1 None)) in
  let st := Sample.client None [Responds r] in
  let ids := PyList (map (fun i => PyStr "id") (seq 0 100)) in
  exists st',
    get_games 1 ids PyNone PyNone st = (Ok (Sample.page 1 None), st')
    /\ script (snd st') = []
    /\ trace (snd st') = [] ++
         [EvGet (BASE_URL +:+ "games")
            {[ "id" := ids; "name" := PyNone; "igdb_id" := PyNone ]}
            {[ "Client-ID" := HStr "cid";
               "Authorization" := HBearer (PyStr "t0") ]}
            (Responds r)].
Proof.
  intros r st ids.
  replace st with (fst st, snd st) by (destruct st; reflexivity).
  apply (get_games_returns_body 0 (fst st) (snd st) _ ids PyNone PyNone r []
           (Sample.page 1 None));
    first [ reflexivity | eexists; reflexivity | left; reflexivity
          | right; eexists; reflexivity | vm_compute; discriminate ].
Defined.

Lemma trace_after_get w endpoint params h out rest :
  trace (after_get w endpoint params h out rest)
  = trace w ++ [EvGet (BASE_URL +:+ endpoint) (deref w params) h out].
Proof. reflexivity. Qed.

Lemma trace_with_item w params k v : trace (with_item w params k v) = trace w.
Proof. reflexivity. Qed.

Lemma trace_with_new_dict w d : trace (with_new_dict w d) = trace w.
Proof. reflexivity. Qed.

(** [get_users_follows] with a cap above 100 does not paginate: it sends
    one GET to [users/follows] with the cap itself as page size and returns
    the whole decoded body. *)
Theorem get_users_follows_large_cap
    (fuel : nat) (o : HelixAPI) (w : world) (h : gmap string header_val)
    (from_id to_id : pyval) (c : Z) (r : Response) (rest : list outcome)
    (b : pyval) :
  is_Some (http o) -> headers o = Some h ->
  is_none from_id && is_none to_id = false ->
  100 < c ->
  script w = Responds r :: rest ->
  status_code r = 200 -> body r = Some b ->
  exists st',
    get_users_follows (S fuel) from_id to_id (Some c) (o, w) = (Ok b, st')
    /\ script (snd st') = rest
    /\ trace (snd st') = trace w ++
         [EvGet (BASE_URL +:+ "users/follows")
            (<["first" := PyInt c]>
               {[ "from_id" := from_id; "to_id" := to_id; "first" := PyInt 1 ]})
            h (Responds r)].
Proof.
  intros [s Hhttp] Hheaders Hsome Hc Hscript H200 Hbody.
  unfold get_users_follows. rewrite Hsome. cbv zeta.
  rewrite (bind_run _ _ _ _ _ (new_dict_run _ o w)).
  cbn [default from_option id].
  replace (c >? 100) with true by (symmetry; apply Z.gtb_lt; lia).
  set (d0 := ({[ "from_id" := from_id; "to_id" := to_id; "first" := PyInt 1 ]}
              : gmap string pyval)).
  unfold bind at 1. unfold dict_setitem at 1, modify_world at 1. cbn [fst snd].
  rewrite (get_request_200 fuel "users/follows" (length (heap w)) o
             (with_item (with_new_dict w d0) (length (heap w)) "first" (PyInt c))
             s h r rest Hhttp Hheaders Hscript H200).
  rewrite Hbody. eexists. split; [reflexivity|]. split; [reflexivity|].
  cbn [snd].
  rewrite trace_after_get, trace_with_item, trace_with_new_dict.
  rewrite (deref_lookup _ _ _
             (lookup_with_item _ _ "first" (PyInt c) _ (lookup_new_dict w d0))).
  reflexivity.
Qed.

Lemma get_users_follows_large_cap_witness :
  let r := mkResponse 200 "" [] (Some (Sample.page 1 None)) in
  let st := Sample.client None [Responds r] in
  exists st',
    get_users_follows 1 (PyStr "7") PyNone (Some 500) st
      = (Ok (Sample.page 1 None), st')
    /\ script (snd st') = []
    /\ trace (snd st') = [] ++
         [EvGet (BASE_URL +:+ "users/follows")
            (<["first" := PyInt 500]>
               {[ "from_id" := PyStr "7"; "to_id" := PyNone; "first" := PyInt 1 ]})
            {[ "Client-ID" := HStr "cid";
               "Authorization" := HBearer (PyStr "t0") ]}
            (Responds r)].
Proof.
  intros r st.
  replace st with (fst st, snd st) by (destruct st; reflexivity).
  apply (get_users_follows_large_cap 0 (fst st) (snd st) _ (PyStr "7") PyNone
           500 r [] (Sample.page 1 None));
    first [ reflexivity | eexists; reflexivity | lia ].
Defined.



(** A valid [get_clips] sends its first GET to [clips] with the three
    selectors, the two dates as ISO strings (None when absent) and, under
    [first], the cap when it is below 100 and 100 otherwise. *)
Theorem get_clips_first_request
    (fuel : nat) (o : HelixAPI) (w : world) (h : gmap string header_val)
    (b g c : pyval) (sa ea : option datetime) (cap : option Z) :
  is_Some (http o) -> headers o = Some h ->
  id_list c -> id_count c <= 100 ->
  is_not_none c + is_not_none b + is_not_none g = 1 ->
  match cap with Some n => 0 < n | None => True end ->
  exists out t,
    trace (snd (snd (get_clips (S fuel) b g c sa ea cap (o, w)))) =
      trace w ++
      EvGet (BASE_URL +:+ "clips")
        (<["first" := PyInt (Z.min 100 (default 100 cap))]>
           {[ "broadcaster_id" := b; "game_id" := g; "id" := c;
              "started_at" := datetime_to_str sa;
              "ended_at" := datetime_to_str ea ]})
        h out :: t.
Proof.
  intros Hhttp Hheaders Hc Hn Hsel Hcap.
  unfold get_clips.
  rewrite (bind_lift_run _ _ _ _ (more_than_100_id_list c Hc)).
  replace (id_count c >? 100) with false
    by (symmetry; destruct (Z.gtb_spec (id_count c) 100); [lia | reflexivity]).
  apply Z.eqb_eq in Hsel. rewrite Hsel. cbn [negb].
  rewrite (bind_run _ _ _ _ _ (new_dict_run _ o w)).
  unfold _paginated_request.
  set (d0 := ({[ "broadcaster_id" := b; "game_id" := g; "id" := c;
                 "started_at" := datetime_to_str sa;
                 "ended_at" := datetime_to_str ea ]} : gmap string pyval)).
  destruct (paginate_sends fuel fuel "clips" (length (heap w)) 100 cap
              (match cap with Some n => n | None => 100 end) []
              o (with_new_dict w d0) h)
    as (out & t & Hsent); [|exact Hhttp | exact Hheaders |].
  { destruct cap as [n|]; [|reflexivity]. rewrite orb_false_r.
    apply Z.gtb_lt. lia. }
  exists out, t. rewrite Hsent.
  rewrite (deref_lookup _ _ _
             (lookup_with_item _ _ "first" _ _ (lookup_new_dict w d0))).
  replace (match cap with Some n => n | None => 100 end) with (default 100 cap)
    by (destruct cap; reflexivity).
  reflexivity.
Qed.

Lemma get_clips_first_request_witness :
  let st := Sample.client None [Sample.answer 200 [] (Sample.page 1 None)] in
  exists out t,
    trace (snd (snd (get_clips 1 (PyStr "123") PyNone PyNone
                       (Some (mkDatetime "2021-06-01T00:00:00+02:00")) None
                       (Some 20) st))) =
      [] ++
      EvGet (BASE_URL +:+ "clips")
        (<["first" := PyInt (Z.min 100 (default 100 (Some 20)))]>
           {[ "broadcaster_id" := PyStr "123"; "game_id" := PyNone;
              "id" := PyNone;
              "started_at" := datetime_to_str
                                (Some (mkDatetime "2021-06-01T00:00:00+02:00"));
              "ended_at" := datetime_to_str None ]})
        {[ "Client-ID" := HStr "cid";
           "Authorization" := HBearer (PyStr "t0") ]} out :: t.
Proof.
  intros st.
  replace st with (fst st, snd st) by (destruct st; reflexivity).
  apply (get_clips_first_request 0 (fst st) (snd st) _ (PyStr "123") PyNone
           PyNone (Some (mkDatetime "2021-06-01T00:00:00+02:00")) None (Some 20));
    first [ reflexivity | eexists; reflexivity | left; reflexivity
          | simpl; lia ].
Defined.

(** [get_users] checks the type of its arguments before their number: an
    argument that is neither a list nor None (a single id passed as a str,
    say) raises TypeError, and nothing is sent. *)
Theorem get_users_rejects_non_lists (fuel : nat) (st : state) (ids logins : pyval) :
  (isinstance_list ids || is_none ids = false ->
   get_users fuel ids logins st
     = (Err (TypeError "user_ids has to be a list or None"), st))
  /\ (isinstance_list ids || is_none ids = true ->
      isinstance_list logins || is_none logins = false ->
      get_users fuel ids logins st
        = (Err (TypeError "logins has to be a list or None"), st)).
Proof.
  split.
  - intros Hids. unfold get_users.
    destruct (is_none ids) eqn:Hn.
    { rewrite orb_true_r in Hids. discriminate Hids. }
    cbn [andb]. rewrite Hids. reflexivity.
  - intros Hids Hlogins. unfold get_users.
    destruct (is_none logins) eqn:Hn.
    { rewrite orb_true_r in Hlogins. discriminate Hlogins. }
    rewrite andb_false_r, Hids, Hlogins. reflexivity.
Qed.

Lemma get_users_rejects_non_lists_witness :
  let st := Sample.client None [Sample.answer 200 [] (Sample.page 1 None)] in
  get_users 3 (PyStr "141981764") PyNone st
    = (Err (TypeError "user_ids has to be a list or None"), st)
  /\ get_users 3 PyNone (PyStr "twitchdev") st
     = (Err (TypeError "logins has to be a list or None"), st).
Proof.
  intros st.
  destruct (get_users_rejects_non_lists 3 st (PyStr "141981764") PyNone) as [H1 _].
  destruct (get_users_rejects_non_lists 3 st PyNone (PyStr "twitchdev")) as [_ H2].
  split; [apply H1; reflexivity | apply H2; reflexivity].
Defined.

(** [get_videos] asked for at most 100 videos by id, with no filter and no
    cap, does not paginate: one GET to [videos], and the [data] of its body
    is returned. *)
Theorem get_videos_by_ids_single_request
    (fuel : nat) (o : HelixAPI) (w : world) (h : gmap string header_val)
    (v : pyval) (r : Response) (rest : list outcome) (b data : pyval) :
  is_Some (http o) -> headers o = Some h ->
  id_list v -> is_none v = false -> id_count v <= 100 ->
  script w = Responds r :: rest ->
  status_code r = 200 -> body r = Some b ->
  py_getitem b "data" = Ok data ->
  exists st',
    get_videos (S fuel) v PyNone PyNone PyNone PyNone PyNone PyNone None (o, w)
      = (Ok data, st')
    /\ script (snd st') = rest
    /\ trace (snd st') = trace w ++
         [EvGet (BASE_URL +:+ "videos")
            {[ "id" := v; "user_id" := PyNone; "game_id" := PyNone;
               "language" := PyNone; "period" := PyNone; "sort" := PyNone;
               "type" := PyNone ]}
            h (Responds r)].
Proof.
  intros [s Hhttp] Hheaders Hv Hsome Hn Hscript H200 Hbody Hdata.
  unfold get_videos.
  rewrite (bind_lift_run _ _ _ _ (more_than_100_id_list v Hv)).
  replace (id_count v >? 100) with false
    by (symmetry; destruct (Z.gtb_spec (id_count v) 100); [lia | reflexivity]).
  unfold is_not_none. rewrite Hsome. cbn [is_none negb andb cap_is_none].
  change (1 + 0 + 0 =? 1) with true. cbn [negb].
  rewrite (bind_run _ _ _ _ _ (new_dict_run _ o w)).
  erewrite bind_run.
  2: { rewrite (get_request_200 fuel "videos" (length (heap w)) o
                  (with_new_dict w _) s h r rest Hhttp Hheaders Hscript H200).
       rewrite Hbody. reflexivity. }
  unfold lift. rewrite Hdata. eexists. split; [reflexivity|].
  split; [reflexivity|].
  cbn [snd]. rewrite trace_after_get, trace_with_new_dict, deref_new_dict.
  reflexivity.
Qed.

Lemma get_videos_by_ids_single_request_witness :
  let r := mkResponse 200 "" [] (Some (Sample.page 1 (Some "A"))) in
  let st := Sample.client None [Responds r] in
  exists st',
    get_videos 1 (PyList [PyStr "335921245"]) PyNone PyNone PyNone PyNone
      PyNone PyNone None st
      = (Ok (PyList [Sample.record 0]), st')
    /\ script (snd st') = []
    /\ trace (snd st') = [] ++
         [EvGet (BASE_URL +:+ "videos")
            {[ "id" := PyList [PyStr "335921245"]; "user_id" := PyNone;
               "game_id" := PyNone; "language" := PyNone; "period" := PyNone;
               "sort" := PyNone; "type" := PyNone ]}
            {[ "Client-ID" := HStr "cid";
               "Authorization" := HBearer (PyStr "t0") ]}
            (Responds r)].
Proof.
  intros r st.
  replace st with (fst st, snd st) by (destruct st; reflexivity).
  apply (get_videos_by_ids_single_request 0 (fst st) (snd st) _
           (PyList [PyStr "335921245"]) r [] (Sample.page 1 (Some "A")));
    first [ reflexivity | eexists; reflexivity
          | right; eexists; reflexivity | simpl; lia ].
Defined.
